(** * plot_latency: the log parser of [docs/plot_latency.py]

    A shallow embedding of [parse_logfile] and of the Python 2 built-ins it
    calls ([str.split], [str.splitlines], [float], list indexing and the
    element-wise NumPy arithmetic on [float64] arrays), followed by the
    properties of the parser.

    Python floats and NumPy [float64] values are IEEE 754 binary64 numbers.
    They are modelled by [spec_float] at precision 53 and maximal exponent
    1024, with the round-to-nearest-even operations of [SpecFloat]. *)

From Stdlib Require Import ZArith NArith PArith Bool List Ascii String Lia.
From Stdlib Require Import Floats.SpecFloat.
Import ListNotations.

Local Open Scope string_scope.
Local Open Scope list_scope.

(** ** Exceptions and results *)

(** The exceptions [parse_logfile] can leave through. *)
Inductive exception : Type :=
| IOError
| IndexError
| ValueError.

Inductive result (A : Type) : Type :=
| Ok (a : A)
| Raise (e : exception).

Arguments Ok {A} a.
Arguments Raise {A} e.

Definition bind {A B : Type} (r : result A) (k : A -> result B) : result B :=
  match r with
  | Ok a => k a
  | Raise e => Raise e
  end.

Notation "x <- r ;; k" := (bind r (fun x => k))
  (at level 61, r at next level, right associativity).

(** [l[i]] on a Python list or a NumPy array, for a non-negative index. *)
Definition index {A : Type} (l : list A) (i : nat) : result A :=
  match nth_error l i with
  | Some a => Ok a
  | None => Raise IndexError
  end.

(** [f] applied to every element, left to right, stopping at the first
    exception. *)
Fixpoint map_result {A B : Type} (f : A -> result B) (l : list A)
  : result (list B) :=
  match l with
  | [] => Ok []
  | a :: l' =>
      b <- f a ;;
      bs <- map_result f l' ;;
      Ok (b :: bs)
  end.

(** ** Floats *)

Module PyFloat.

Definition prec : Z := 53.
Definition emax : Z := 1024.

Definition float : Type := spec_float.

Definition fadd : float -> float -> float := SFadd prec emax.
Definition fsub : float -> float -> float := SFsub prec emax.
Definition fmul : float -> float -> float := SFmul prec emax.
Definition fabs : float -> float := SFabs.
(** Python's [==] on floats. *)
Definition feqb : float -> float -> bool := SFeqb.

(** The conversion of a Python int in a mixed int/float operation; the
    ints met here are list indices and the literal [1000000]. *)
Definition float_of_int (n : Z) : float := binary_normalize prec emax n 0 false.

Definition is_finite (x : float) : bool :=
  match x with
  | S754_zero _ | S754_finite _ _ _ => true
  | S754_infinity _ | S754_nan => false
  end.

Definition is_zero (x : float) : bool :=
  match x with
  | S754_zero _ => true
  | _ => false
  end.

(** *** [float(s)] on a Python 2 [str]

    Leading and trailing white space is skipped; what is left must be
    an optionally signed [inf], [infinity] or [nan] in any letter case,
    or a decimal numeral: digits with an optional point, at least one
    digit, and an optional exponent.  The numeral is rounded to the
    nearest binary64 value, ties to even. *)

Definition is_space (c : ascii) : bool :=
  let n := nat_of_ascii c in
  (Nat.eqb n 32 || (Nat.leb 9 n && Nat.leb n 13))%bool.

Definition digit_of (c : ascii) : option N :=
  let n := N_of_ascii c in
  if (N.leb 48 n && N.leb n 57)%bool then Some (n - 48)%N else None.

Definition lower (c : ascii) : ascii :=
  let n := nat_of_ascii c in
  if (Nat.leb 65 n && Nat.leb n 90)%bool then ascii_of_nat (n + 32) else c.

Fixpoint skip_space (s : string) : string :=
  match s with
  | String c r => if is_space c then skip_space r else s
  | EmptyString => EmptyString
  end.

(** [p] is in lower case; the rest of [s] after [p] when [s] starts with
    [p] up to letter case. *)
Fixpoint match_nocase (p s : string) : option string :=
  match p with
  | EmptyString => Some s
  | String a p' =>
      match s with
      | String c s' =>
          if Ascii.eqb (lower c) a then match_nocase p' s' else None
      | EmptyString => None
      end
  end.

Definition read_sign (s : string) : bool * string :=
  match s with
  | String "-" r => (true, r)
  | String "+" r => (false, r)
  | _ => (false, s)
  end.

(** The longest run of digits at the head of [s]: the decimal value of
    [acc] followed by the run, the length of the run added to [cnt], and
    what follows the run. *)
Fixpoint read_digits (acc : N) (cnt : nat) (s : string) : N * nat * string :=
  match s with
  | String c r =>
      match digit_of c with
      | Some d => read_digits (10 * acc + d)%N (S cnt) r
      | None => (acc, cnt, s)
      end
  | EmptyString => (acc, cnt, s)
  end.

(** The exponent part, when there is a well-formed one at the head of
    [s]; when there is none the numeral ends before the [e]. *)
Definition read_exponent (s : string) : Z * string :=
  match s with
  | String c r =>
      if Ascii.eqb (lower c) "e" then
        let '(neg, r1) := read_sign r in
        let '(e, cnt, r2) := read_digits 0 0 r1 in
        match cnt with
        | O => (0%Z, s)
        | S _ => ((if neg then - Z.of_N e else Z.of_N e)%Z, r2)
        end
      else (0%Z, s)
  | EmptyString => (0%Z, s)
  end.

(** [(-1)^neg * m * 10^e10], correctly rounded. *)
Definition float_of_decimal (neg : bool) (m : N) (e10 : Z) : float :=
  match m with
  | N0 => S754_zero neg
  | Npos p =>
      match e10 with
      | Zneg k =>
          let '(q, e2, loc) :=
            SFdiv_core_binary prec emax (Zpos p) 0 (Zpos (Pos.pow 10 k)) 0 in
          binary_round_aux prec emax neg q e2 loc
      | Z0 => binary_round prec emax neg p 0
      | Zpos k => binary_round prec emax neg (p * Pos.pow 10 k) 0
      end
  end.

(** A numeral at the head of [s], and what follows it. *)
Definition read_number (s : string) : option (float * string) :=
  let '(neg, r) := read_sign s in
  match match_nocase "inf" r with
  | Some r1 =>
      match match_nocase "inity" r1 with
      | Some r2 => Some (S754_infinity neg, r2)
      | None => Some (S754_infinity neg, r1)
      end
  | None =>
      match match_nocase "nan" r with
      | Some r1 => Some (S754_nan, r1)
      | None =>
          let '(m1, n1, r1) := read_digits 0 0 r in
          let '(m2, n2, r2) :=
            match r1 with
            | String "." r1' => read_digits m1 0 r1'
            | _ => (m1, O, r1)
            end in
          match (n1 + n2)%nat with
          | O => None
          | S _ =>
              let '(e, r3) := read_exponent r2 in
              Some (float_of_decimal neg m2 (e - Z.of_nat n2), r3)
          end
      end
  end.

Definition float_of_string (s : string) : option float :=
  match read_number (skip_space s) with
  | Some (x, r) =>
      match skip_space r with
      | EmptyString => Some x
      | String _ _ => None
      end
  | None => None
  end.

(** [float(s)]: a string that is no numeral raises [ValueError]. *)
Definition float_ (s : string) : result float :=
  match float_of_string s with
  | Some x => Ok x
  | None => Raise ValueError
  end.

End PyFloat.

Import PyFloat.

(** ** Strings

    A Python 2 [str] is a byte string: [string] of 8-bit [ascii]. *)

Module PyStr.

Definition LF : ascii := "010".
Definition CR : ascii := "013".

(** [s.split(sep, maxsplit)] for a separator of one character: [s] is cut
    at the first [maxsplit] occurrences of [sep]; the last piece is the
    rest of [s], separators included. *)
Fixpoint split (sep : ascii) (maxsplit : nat) (s : string) : list string :=
  match s with
  | EmptyString => [EmptyString]
  | String c r =>
      match maxsplit with
      | O => [s]
      | S m =>
          if Ascii.eqb c sep then EmptyString :: split sep m r
          else
            match split sep maxsplit r with
            | piece :: pieces => String c piece :: pieces
            | [] => [String c EmptyString]
            end
      end
  end.

(** [s.splitlines()]: [s] is cut after every ["\n"], ["\r"] and
    ["\r\n"]; the line ends are dropped and no empty line is made for
    the end of the string. *)
Fixpoint splitlines (s : string) : list string :=
  match s with
  | EmptyString => []
  | String c r =>
      if Ascii.eqb c LF then EmptyString :: splitlines r
      else if Ascii.eqb c CR then
        match r with
        | String c' r' =>
            if Ascii.eqb c' LF then EmptyString :: splitlines r'
            else EmptyString :: splitlines r
        | EmptyString => [EmptyString]
        end
      else
        match splitlines r with
        | line :: lines => String c line :: lines
        | [] => [String c EmptyString]
        end
  end.

End PyStr.

Import PyStr.

(** ** The log parser *)

(** The files [open] can see: the text of each file that exists. *)
Definition filesystem : Type := string -> option string.

(** [with open(filename) as f: data = f.read()] *)
Definition read_file (fs : filesystem) (filename : string) : result string :=
  match fs filename with
  | Some data => Ok data
  | None => Raise IOError
  end.

(** [xrange(a, b)] *)
Definition xrange (a b : nat) : list nat := seq a (b - a).

(** [l.pop(0)]: the first element and the list that is left. *)
Definition pop0 {A : Type} (l : list A) : result (A * list A) :=
  match l with
  | a :: l' => Ok (a, l')
  | [] => Raise IndexError
  end.

(** The body of the [for] loop of [parse_logfile], run for the indices
    [indices] in turn; [latency] is the list built so far. *)
Fixpoint latency_loop (timestamps : list string) (cycle_time : string)
    (indices : list nat) (latency : list float) : result (list float) :=
  match indices with
  | [] => Ok latency
  | i :: indices' =>
      s_i <- index timestamps i ;;
      actual_timestamp <- float_ s_i ;;
      s_0 <- index timestamps 0 ;;
      first_timestamp <- float_ s_0 ;;
      period <- float_ cycle_time ;;
      let expected_timestamp :=
        fadd first_timestamp (fmul period (float_of_int (Z.of_nat i))) in
      latency_loop timestamps cycle_time indices'
        (latency ++ [fabs (fsub actual_timestamp expected_timestamp)])
  end.

Definition parse_logfile (fs : filesystem) (filename cycle_time : string)
  : result (list float * list float) :=
  data <- read_file fs filename ;;
  rest <- index (split LF 6 data) 6 ;;
  let timestamps := splitlines rest in
  latency <- latency_loop timestamps cycle_time
               (xrange 1 (List.length timestamps)) [] ;;
  popped <- pop0 timestamps ;;
  let timestamps := snd popped in
  x <- map_result float_ timestamps ;;
  let y := latency in
  x_0 <- index x 0 ;;
  let x := map (fun v => fsub v x_0) x in
  let y := map (fun v => fmul v (float_of_int 1000000)) y in
  Ok (x, y).

(** ** Log files as text *)

(** Every line followed by a newline. *)
Fixpoint unlines (lines : list string) : string :=
  match lines with
  | [] => EmptyString
  | l :: lines' => l ++ String LF (unlines lines')
  end.

(** The lines with a newline between two of them and none at the end. *)
Fixpoint join_lines (lines : list string) : string :=
  match lines with
  | [] => EmptyString
  | [l] => l
  | l :: lines' => l ++ String LF (join_lines lines')
  end.

(** The text of a log file: the header lines, then the timestamp lines;
    [final_newline] tells whether the last timestamp line is terminated. *)
Definition logfile_text (headers lines : list string) (final_newline : bool)
  : string :=
  unlines headers ++ (if final_newline then unlines lines else join_lines lines).

Fixpoint no_char (a : ascii) (s : string) : bool :=
  match s with
  | EmptyString => true
  | String c r => negb (Ascii.eqb c a) && no_char a r
  end.

(** A header block: six lines, none of them holding a newline. *)
Definition header_ok (headers : list string) : bool :=
  Nat.eqb (List.length headers) 6 && forallb (no_char LF) headers.

(** The content of one line of the data section: no line end in it. *)
Definition is_line (s : string) : bool := no_char LF s && no_char CR s.

(** The lines of a data section: without a final newline the last line
    of a text cannot be empty. *)
Definition lines_ok (lines : list string) (final_newline : bool) : bool :=
  forallb is_line lines
  && (final_newline || negb (String.eqb (last lines "x") EmptyString)).

(** A file system holding one file. *)
Definition single_file (name data : string) : filesystem :=
  fun n => if String.eqb n name then Some data else None.

(** ** What the claims speak of *)

(** Microseconds per second, as the float the scaling multiplies by. *)
Definition usec : float := float_of_int 1000000.

(** The latency of sample [i], read as [t], against the schedule that
    starts at [t_0] with period [period]: [|t - (t_0 + period * i)|]. *)
Definition latency (t_0 period : float) (i : nat) (t : float) : float :=
  fabs (fsub t (fadd t_0 (fmul period (float_of_int (Z.of_nat i))))).

(** Sample [i], read as [t], lies on the schedule: Python's
    [t == t_0 + period * i]. *)
Definition on_schedule_at (t_0 period : float) (i : nat) (t : float) : bool :=
  feqb t (fadd t_0 (fmul period (float_of_int (Z.of_nat i)))).

(** Every sample of [ts], numbered from [i] on, lies on the schedule. *)
Fixpoint on_schedule (t_0 period : float) (i : nat) (ts : list float) : bool :=
  match ts with
  | [] => true
  | t :: ts' => on_schedule_at t_0 period i t && on_schedule t_0 period (S i) ts'
  end.

(** The latencies of the samples [ts], numbered from [i] on. *)
Fixpoint latencies (t_0 period : float) (i : nat) (ts : list float) : list float :=
  match ts with
  | [] => []
  | t :: ts' => latency t_0 period i t :: latencies t_0 period (S i) ts'
  end.

(** The strings [lines] are numerals, and [ts] is what [float] reads
    from them. *)
Definition parsed (lines : list string) (ts : list float) : Prop :=
  map float_of_string lines = map Some ts.

(** [parse_logfile] from the loop on, [timestamps] being the lines of
    the data section. *)
Definition arrays_of_lines (timestamps : list string) (cycle_time : string)
  : result (list float * list float) :=
  latency <- latency_loop timestamps cycle_time
               (xrange 1 (List.length timestamps)) [] ;;
  popped <- pop0 timestamps ;;
  x <- map_result float_ (snd popped) ;;
  x_0 <- index x 0 ;;
  Ok (map (fun v => fsub v x_0) x,
      map (fun v => fmul v (float_of_int 1000000)) latency).

(** The float a numeral stands for. *)
Definition the_float (s : string) : float :=
  match float_of_string s with
  | Some x => x
  | None => S754_nan
  end.

(** Six header lines of no particular content. *)
Definition sample_headers : list string :=
  ["# rt_test"; "cycle: 100 ms"; ""; "priority 80"; "-- start --"; "time [s]"].

Definition other_headers : list string :=
  ["a"; "b"; "c"; "d"; "e"; "f"].

Definition log_name : string := "../src/timestamps.txt".

(** The scenario of the specification: three samples, period 0.1 s. *)
Definition scenario_lines : list string := ["10.0"; "10.1"; "10.25"].

Definition scenario_fs : filesystem :=
  single_file log_name (logfile_text sample_headers scenario_lines true).

(** Three samples exactly on a schedule of period 0.5 s. *)
Definition periodic_lines : list string := ["1.0"; "1.5"; "2.0"].

Definition periodic_fs : filesystem :=
  single_file log_name (logfile_text sample_headers periodic_lines true).

(** A log with the reference sample only. *)
Definition single_fs : filesystem :=
  single_file log_name (logfile_text sample_headers ["10.0"] true).

(** A log whose second sample overflows the floats. *)
Definition overflow_lines : list string := ["1.0"; "1e999"].

Definition overflow_fs : filesystem :=
  single_file log_name (logfile_text sample_headers overflow_lines true).

(** A log whose samples all read as infinity. *)
Definition infinite_lines : list string := ["inf"; "inf"].

Definition infinite_fs : filesystem :=
  single_file log_name (logfile_text sample_headers infinite_lines true).

(** A log with a line that is no numeral. *)
Definition malformed_lines : list string := ["10.0"; "10.1"; "n/a"].

Definition malformed_fs : filesystem :=
  single_file log_name (logfile_text sample_headers malformed_lines true).


(** ** The script, and log files of other shapes *)

(** The first statement of the script's main block,
    [x, y = parse_logfile('../src/timestamps.txt', argv[1])]: the
    arguments are evaluated, then the parser is called.  The arrays it
    returns are handed to [generate_plot], which does nothing but call
    the plotting library. *)
Definition main_arrays (argv : list string) (fs : filesystem)
  : result (list float * list float) :=
  cycle_time <- index argv 1 ;;
  parse_logfile fs "../src/timestamps.txt" cycle_time.

(** Python's [<=] on floats. *)
Definition fleb : float -> float -> bool := SFleb.

(** The sign bit of [v] is clear, or [v] is not a number. *)
Definition sign_clear (v : float) : bool :=
  match v with
  | S754_zero s | S754_infinity s | S754_finite s _ _ => negb s
  | S754_nan => true
  end.

(** The number of occurrences of [a] in [s]. *)
Fixpoint count_char (a : ascii) (s : string) : nat :=
  match s with
  | EmptyString => 0
  | String c r => if Ascii.eqb c a then S (count_char a r) else count_char a r
  end.

(** Every line followed by a carriage return and a newline. *)
Fixpoint unlines_crlf (lines : list string) : string :=
  match lines with
  | [] => EmptyString
  | l :: lines' => l ++ String CR (String LF (unlines_crlf lines'))
  end.

Definition TAB : ascii := "009".

(** A string of white space only, as [float] skips it. *)
Fixpoint all_space (s : string) : bool :=
  match s with
  | EmptyString => true
  | String c r => is_space c && all_space r
  end.

(** The arrays of the scenario. *)
Definition scenario_x : list float :=
  [the_float "0.0"; the_float "0.15000000000000036"].

Definition scenario_y : list float :=
  [the_float "0.0"; the_float "50000.00000000071"].

(** ** The files as a run finds and leaves them *)









(** ** The model on concrete inputs *)

Section Examples.

Example float_of_10_1 :
  float_of_string "10.1" = Some (S754_finite false 5685794529555251 (-49)).
Proof. reflexivity. Qed.

Example float_of_tenth :
  float_of_string "0.1" = Some (S754_finite false 7205759403792794 (-56)).
Proof. reflexivity. Qed.

Example float_of_padded :
  float_of_string " -1.5e-3 " = Some (S754_finite true 6917529027641082 (-62)).
Proof. reflexivity. Qed.

(** A tie is rounded to the even neighbour: [2^53 + 1] reads as [2^53]. *)
Example float_of_tie :
  float_of_string "9007199254740993" = Some (S754_finite false 4503599627370496 1).
Proof. reflexivity. Qed.

Example float_of_overflow :
  float_of_string "1e999" = Some (S754_infinity false).
Proof. vm_compute. reflexivity. Qed.

Example float_of_words :
  map float_of_string ["-Infinity"; "INF"; "nan"; "+NaN"]
  = [Some (S754_infinity true); Some (S754_infinity false);
     Some S754_nan; Some S754_nan].
Proof. reflexivity. Qed.

Example float_of_malformed :
  map float_of_string [""; " "; "."; "1e"; "0x10"; "n/a"; "1 2"; "infinit"; "- 1"]
  = [None; None; None; None; None; None; None; None; None].
Proof. reflexivity. Qed.

Example split_at_most :
  split LF 2 (String LF ("a" ++ String LF (String LF ("b" ++ String LF ""))))
  = [""; "a"; String LF ("b" ++ String LF "")].
Proof. reflexivity. Qed.

Example split_too_short :
  index (split LF 6 (unlines ["a"; "b"])) 6 = Raise IndexError.
Proof. reflexivity. Qed.

Example splitlines_line_ends :
  splitlines
    (String CR (String LF ("a" ++ String CR ("b" ++ String LF (String LF (String CR ""))))))
  = [""; "a"; "b"; ""; ""].
Proof. reflexivity. Qed.

Example parse_missing_file :
  parse_logfile scenario_fs "latency.png" "0.1" = Raise IOError.
Proof. reflexivity. Qed.

Example parse_no_data :
  parse_logfile (single_file log_name (logfile_text sample_headers [] true))
    log_name "0.1"
  = Raise IndexError.
Proof. reflexivity. Qed.

Example parse_blank_last_line :
  parse_logfile
    (single_file log_name (logfile_text sample_headers ["10.0"; "10.1"; ""] true))
    log_name "0.1"
  = Raise ValueError.
Proof. vm_compute. reflexivity. Qed.

Example parse_bad_cycle_time :
  parse_logfile scenario_fs log_name "fast" = Raise ValueError.
Proof. vm_compute. reflexivity. Qed.

End Examples.

(** ** Strings: cutting a text back into its lines *)

Section StringFacts.

Lemma append_assoc (a b c : string) : ((a ++ b) ++ c = a ++ (b ++ c))%string.
Proof.
  induction a as [|ch a IH]; simpl; [reflexivity|].
  now rewrite IH.
Qed.

Lemma no_char_cons (a c : ascii) (s : string) :
  no_char a (String c s) = true -> Ascii.eqb c a = false /\ no_char a s = true.
Proof.
  simpl. intros H. apply andb_true_iff in H. destruct H as [H1 H2].
  split; [now apply negb_true_iff|assumption].
Qed.

(** A piece free of the separator is cut off whole. *)
Lemma split_piece (sep : ascii) (m : nat) (h t : string) :
  no_char sep h = true ->
  split sep (S m) (h ++ String sep t) = h :: split sep m t.
Proof.
  induction h as [|c h IH]; intros Hh.
  - simpl. now rewrite Ascii.eqb_refl.
  - apply no_char_cons in Hh. destruct Hh as [Hc Hh].
    change ((String c h ++ String sep t)%string)
      with (String c (h ++ String sep t)).
    cbn [split]. rewrite Hc. now rewrite (IH Hh).
Qed.

Lemma split_zero (sep : ascii) (s : string) : split sep 0 s = [s].
Proof. destruct s; reflexivity. Qed.

(** Cutting at most [n] times a text that starts with [n] terminated
    lines gives these lines, then all the rest in one piece. *)
Lemma split_unlines (headers : list string) (rest : string) :
  forallb (no_char LF) headers = true ->
  split LF (List.length headers) (unlines headers ++ rest) = headers ++ [rest].
Proof.
  induction headers as [|h hs IH]; intros Hh.
  - simpl. apply split_zero.
  - simpl in Hh. apply andb_true_iff in Hh. destruct Hh as [Hh Hhs].
    cbn [unlines List.length app].
    rewrite append_assoc.
    change ((String LF (unlines hs) ++ rest)%string)
      with (String LF (unlines hs ++ rest)).
    rewrite (split_piece LF _ h _ Hh). now rewrite (IH Hhs).
Qed.

Lemma is_line_cons (c : ascii) (s : string) :
  is_line (String c s) = true ->
  Ascii.eqb c LF = false /\ Ascii.eqb c CR = false /\ is_line s = true.
Proof.
  unfold is_line. intros H. apply andb_true_iff in H. destruct H as [H1 H2].
  apply no_char_cons in H1. apply no_char_cons in H2.
  destruct H1 as [? H1]. destruct H2 as [? H2].
  repeat split; try assumption. now rewrite H1, H2.
Qed.

(** A terminated line is cut off whole. *)
Lemma splitlines_terminated (l t : string) :
  is_line l = true -> splitlines (l ++ String LF t) = l :: splitlines t.
Proof.
  induction l as [|c l IH]; intros Hl.
  - reflexivity.
  - apply is_line_cons in Hl. destruct Hl as (Hlf & Hcr & Hl).
    change ((String c l ++ String LF t)%string)
      with (String c (l ++ String LF t)).
    cbn [splitlines]. rewrite Hlf, Hcr. now rewrite (IH Hl).
Qed.

(** A last line without its newline is a line all the same, when there
    is something on it. *)
Lemma splitlines_unterminated (l : string) :
  is_line l = true -> l <> EmptyString -> splitlines l = [l].
Proof.
  induction l as [|c l IH]; intros Hl Hne; [congruence|].
  apply is_line_cons in Hl. destruct Hl as (Hlf & Hcr & Hl).
  cbn [splitlines]. rewrite Hlf, Hcr.
  destruct l as [|c' l'].
  - reflexivity.
  - rewrite (IH Hl); [reflexivity|discriminate].
Qed.

Lemma splitlines_unlines (lines : list string) :
  forallb is_line lines = true -> splitlines (unlines lines) = lines.
Proof.
  induction lines as [|l ls IH]; intros H; [reflexivity|].
  simpl in H. apply andb_true_iff in H. destruct H as [Hl Hls].
  cbn [unlines]. rewrite (splitlines_terminated _ _ Hl). now rewrite (IH Hls).
Qed.

Lemma splitlines_join_lines (lines : list string) :
  forallb is_line lines = true ->
  last lines "x" <> EmptyString ->
  splitlines (join_lines lines) = lines.
Proof.
  induction lines as [|l ls IH]; intros H Hlast; [reflexivity|].
  simpl in H. apply andb_true_iff in H. destruct H as [Hl Hls].
  destruct ls as [|l' ls'].
  - simpl in *. now apply splitlines_unterminated.
  - change (join_lines (l :: l' :: ls'))
      with ((l ++ String LF (join_lines (l' :: ls')))%string).
    rewrite (splitlines_terminated _ _ Hl). f_equal.
    apply IH; assumption.
Qed.

(** The data section of a log file is cut back into its lines. *)
Lemma splitlines_data (lines : list string) (final_newline : bool) :
  lines_ok lines final_newline = true ->
  splitlines (if final_newline then unlines lines else join_lines lines) = lines.
Proof.
  unfold lines_ok. intros H. apply andb_true_iff in H. destruct H as [Hl Hf].
  destruct final_newline.
  - now apply splitlines_unlines.
  - apply splitlines_join_lines; [assumption|].
    simpl in Hf. apply negb_true_iff in Hf.
    now apply String.eqb_neq.
Qed.

(** The seventh piece of a log file is its data section. *)
Lemma split_logfile (headers lines : list string) (final_newline : bool) :
  header_ok headers = true ->
  index (split LF 6 (logfile_text headers lines final_newline)) 6
  = Ok (if final_newline then unlines lines else join_lines lines).
Proof.
  unfold header_ok, logfile_text. intros H.
  apply andb_true_iff in H. destruct H as [Hn Hh].
  apply Nat.eqb_eq in Hn.
  rewrite <- Hn at 1. rewrite (split_unlines _ _ Hh).
  unfold index. rewrite nth_error_app2 by lia.
  rewrite Hn. reflexivity.
Qed.

End StringFacts.

(** ** Floats: the facts the parser relies on *)

Section FloatFacts.

Lemma fmul_comm (x y : float) : fmul x y = fmul y x.
Proof.
  destruct x as [sx|sx| |sx mx ex], y as [sy|sy| |sy my ey];
    unfold fmul; simpl; try reflexivity;
    try (now rewrite xorb_comm).
  now rewrite xorb_comm, Pos.mul_comm, Z.add_comm.
Qed.

(** A finite float minus itself is [+0.0]. *)
Lemma fsub_self (x : float) :
  is_finite x = true -> fsub x x = S754_zero false.
Proof.
  destruct x as [s|s| |s m e]; simpl; intros H; try discriminate.
  - now destruct s.
  - unfold fsub, SFsub. rewrite Z.min_id.
    now rewrite Z.sub_diag.
Qed.

(** Floats that compare equal are both zero, both the same infinity, or
    the same finite number. *)
Lemma feqb_true (x y : float) :
  feqb x y = true ->
  (is_zero x = true /\ is_zero y = true) \/
  (is_finite x = false /\ is_finite y = false) \/
  (is_finite x = true /\ x = y).
Proof.
  unfold feqb, SFeqb.
  destruct x as [sx|sx| |sx mx ex], y as [sy|sy| |sy my ey]; simpl;
    try discriminate; try (destruct sx; discriminate);
    try (destruct sy; discriminate); auto.
  destruct sx, sy; try discriminate;
    destruct (Z.compare_spec ex ey) as [He|He|He]; try discriminate;
    change (Pos.compare_cont Eq mx my) with (Pos.compare mx my);
    destruct (Pos.compare_spec mx my) as [Hm|Hm|Hm]; try discriminate;
    intros _; right; right; subst; auto.
Qed.

(** Two finite floats that compare equal are at distance [+0.0]. *)
Lemma latency_of_equal (x y : float) :
  is_finite x = true -> feqb x y = true ->
  fabs (fsub x y) = S754_zero false.
Proof.
  intros Hx Heq. destruct (feqb_true _ _ Heq) as [[Hzx Hzy]|[[Hix _]|[_ Hxy]]].
  - destruct x as [sx| | |], y as [sy| | |]; try discriminate.
    now destruct sx, sy.
  - congruence.
  - subst y. now rewrite (fsub_self _ Hx).
Qed.

Lemma fmul_zero_usec : fmul (S754_zero false) usec = S754_zero false.
Proof. reflexivity. Qed.

(** The empty string is no numeral. *)
Lemma float_of_empty : float_of_string EmptyString = None.
Proof. reflexivity. Qed.

End FloatFacts.

(** ** The loop and the arrays *)

Section ParserFacts.

Lemma parsed_length (lines : list string) (ts : list float) :
  parsed lines ts -> List.length lines = List.length ts.
Proof.
  unfold parsed. intros H.
  rewrite <- (length_map float_of_string lines), H. apply length_map.
Qed.

Lemma parsed_nth (lines : list string) (ts : list float) (i : nat) (t : float) :
  parsed lines ts -> nth_error ts i = Some t ->
  exists s, nth_error lines i = Some s /\ float_of_string s = Some t.
Proof.
  unfold parsed. revert ts i.
  induction lines as [|l ls IH]; intros [|t' ts] i H Hi;
    try discriminate; try (destruct i; discriminate).
  simpl in H. injection H as Hl Hls.
  destruct i as [|i]; simpl in Hi |- *.
  - exists l. split; congruence.
  - now apply (IH ts).
Qed.

Lemma parsed_tail (l : string) (ls : list string) (t : float) (ts : list float) :
  parsed (l :: ls) (t :: ts) -> parsed ls ts.
Proof. unfold parsed. simpl. congruence. Qed.

(** [np.asarray(lines, dtype=float)] on numerals. *)
Lemma map_result_parsed (lines : list string) (ts : list float) :
  parsed lines ts -> map_result float_ lines = Ok ts.
Proof.
  unfold parsed. revert ts.
  induction lines as [|l ls IH]; intros [|t ts] H; try discriminate.
  - reflexivity.
  - simpl in H. injection H as Hl Hls.
    cbn [map_result]. unfold float_ at 1. rewrite Hl. cbn [bind].
    now rewrite (IH ts Hls).
Qed.

(** The latencies as the loop numbers them, by position. *)
Lemma latencies_by_index (t_0 period : float) (pre rest : list float) :
  map (fun i => latency t_0 period i (nth i (pre ++ rest) S754_nan))
      (seq (List.length pre) (List.length rest))
  = latencies t_0 period (List.length pre) rest.
Proof.
  revert pre. induction rest as [|r rest IH]; intros pre; [reflexivity|].
  cbn [List.length seq map latencies].
  rewrite nth_middle. f_equal.
  specialize (IH (pre ++ [r])).
  rewrite <- app_assoc, length_app in IH. cbn [List.length app] in IH.
  now rewrite Nat.add_1_r in IH.
Qed.

Lemma latencies_length (t_0 period : float) (i : nat) (ts : list float) :
  List.length (latencies t_0 period i ts) = List.length ts.
Proof.
  revert i. induction ts as [|t ts IH]; intros i; simpl; [reflexivity|].
  now rewrite IH.
Qed.

Lemma latencies_nth (t_0 period : float) (ts : list float) :
  forall i j t, nth_error ts j = Some t ->
  nth_error (latencies t_0 period i ts) j = Some (latency t_0 period (i + j) t).
Proof.
  induction ts as [|t' ts IH]; intros i [|j] t H; try discriminate; simpl in *.
  - injection H as ->. now rewrite Nat.add_0_r.
  - rewrite (IH (S i) j t H). now rewrite Nat.add_succ_r.
Qed.

Section Loop.

Variables (timestamps : list string) (cycle_time : string).

(** On numerals the loop appends one latency per index. *)
Lemma latency_loop_parsed (period t_0 : float) (ts : list float) :
  parsed timestamps (t_0 :: ts) ->
  float_of_string cycle_time = Some period ->
  forall indices acc,
    Forall (fun i => i < List.length (t_0 :: ts)) indices ->
    latency_loop timestamps cycle_time indices acc
    = Ok (acc ++ map (fun i => latency t_0 period i (nth i (t_0 :: ts) S754_nan))
                     indices).
Proof.
  intros Hp Hc. induction indices as [|i indices IH]; intros acc Hi.
  - simpl. now rewrite app_nil_r.
  - inversion Hi as [|? ? Hlt Hrest]; subst.
    destruct (nth_error (t_0 :: ts) i) as [t|] eqn:Ht;
      [|apply nth_error_None in Ht; lia].
    destruct (parsed_nth _ _ _ _ Hp Ht) as (s & Hs & Hf).
    destruct (parsed_nth _ _ 0 t_0 Hp eq_refl) as (s0 & Hs0 & Hf0).
    cbn [latency_loop]. unfold index, float_.
    rewrite Hs. cbn [bind]. rewrite Hf. cbn [bind].
    rewrite Hs0. cbn [bind]. rewrite Hf0. cbn [bind].
    rewrite Hc. cbn [bind].
    rewrite (IH _ Hrest). rewrite <- app_assoc. cbn [map app].
    erewrite nth_error_nth by exact Ht. reflexivity.
Qed.

(** The loop reads strings at valid indices only: the one exception
    it can raise is the one of [float]. *)
Lemma latency_loop_raises (indices : list nat) :
  Forall (fun i => i < List.length timestamps) indices ->
  forall acc e,
    latency_loop timestamps cycle_time indices acc = Raise e ->
    e = ValueError.
Proof.
  induction indices as [|i indices IH]; intros Hi acc e; [discriminate|].
  inversion Hi as [|? ? Hlt Hrest]; subst.
  cbn [latency_loop]. unfold index, float_.
  destruct (nth_error timestamps i) as [s|] eqn:Hs;
    [|apply nth_error_None in Hs; lia].
  cbn [bind]. destruct (float_of_string s); cbn [bind]; [|congruence].
  destruct (nth_error timestamps 0) as [s0|] eqn:Hs0;
    [|apply nth_error_None in Hs0; lia].
  cbn [bind]. destruct (float_of_string s0); cbn [bind]; [|congruence].
  destruct (float_of_string cycle_time); cbn [bind]; [|congruence].
  apply (IH Hrest).
Qed.

(** When the loop ends normally every string it read was a numeral. *)
Lemma latency_loop_read (indices : list nat) :
  forall acc l,
    latency_loop timestamps cycle_time indices acc = Ok l ->
    forall i s, (In i indices \/ (i = 0 /\ indices <> [])) ->
                nth_error timestamps i = Some s ->
                float_of_string s <> None.
Proof.
  induction indices as [|k indices IH]; intros acc l Hl i s Hin Hs.
  - destruct Hin as [[]|[_ Hne]]. now elim Hne.
  - cbn [latency_loop] in Hl. unfold index, float_ in Hl.
    destruct (nth_error timestamps k) as [sk|] eqn:Hsk; [|discriminate].
    cbn [bind] in Hl.
    destruct (float_of_string sk) eqn:Hfk; [|discriminate].
    cbn [bind] in Hl.
    destruct (nth_error timestamps 0) as [s0|] eqn:Hs0; [|discriminate].
    cbn [bind] in Hl.
    destruct (float_of_string s0) eqn:Hf0; [|discriminate].
    cbn [bind] in Hl.
    destruct (float_of_string cycle_time); [|discriminate].
    cbn [bind] in Hl.
    destruct Hin as [[->|Hin]|[-> _]].
    + congruence.
    + apply (IH _ _ Hl i s); [now left|assumption].
    + congruence.
Qed.

End Loop.

End ParserFacts.

(** ** [parse_logfile] on a log file *)

Section LogFile.

Lemma parse_logfile_eq (fs : filesystem) (filename cycle_time : string) :
  parse_logfile fs filename cycle_time
  = (data <- read_file fs filename ;;
     rest <- index (split LF 6 data) 6 ;;
     arrays_of_lines (splitlines rest) cycle_time).
Proof. reflexivity. Qed.

(** On a log file the parser works on the lines of the data section. *)
Lemma parse_logfile_lines (fs : filesystem) (filename cycle_time : string)
    (headers lines : list string) (final_newline : bool) :
  fs filename = Some (logfile_text headers lines final_newline) ->
  header_ok headers = true ->
  lines_ok lines final_newline = true ->
  parse_logfile fs filename cycle_time = arrays_of_lines lines cycle_time.
Proof.
  intros Hfile Hh Hl. rewrite parse_logfile_eq.
  unfold read_file. rewrite Hfile. cbn [bind].
  rewrite (split_logfile _ _ _ Hh). cbn [bind].
  now rewrite (splitlines_data _ _ Hl).
Qed.

(** The header block is found whatever follows it. *)
Lemma parse_logfile_data (fs : filesystem) (filename cycle_time : string)
    (headers : list string) (data : string) :
  fs filename = Some (unlines headers ++ data)%string ->
  header_ok headers = true ->
  parse_logfile fs filename cycle_time
  = arrays_of_lines (splitlines data) cycle_time.
Proof.
  intros Hfile Hh. rewrite parse_logfile_eq.
  unfold read_file. rewrite Hfile. cbn [bind].
  unfold header_ok in Hh. apply andb_true_iff in Hh. destruct Hh as [Hn Hh].
  apply Nat.eqb_eq in Hn.
  rewrite <- Hn at 1. rewrite (split_unlines _ _ Hh).
  unfold index. rewrite nth_error_app2 by lia.
  rewrite Hn. reflexivity.
Qed.

Lemma parsed_in (lines : list string) (ts : list float) (s : string) :
  parsed lines ts -> In s lines -> float_of_string s <> None.
Proof.
  unfold parsed. revert ts.
  induction lines as [|l ls IH]; intros [|t ts] H Hin;
    try discriminate; [destruct Hin|].
  simpl in H. injection H as Hl Hls.
  destruct Hin as [->|Hin]; [congruence|].
  now apply (IH ts).
Qed.

Lemma last_in {A : Type} (l : list A) (d : A) : l <> [] -> In (last l d) l.
Proof.
  induction l as [|a [|b l] IH]; intros H; [congruence|now left|].
  right. apply IH. discriminate.
Qed.

(** Lines that are numerals make a data section with or without a
    final newline. *)
Lemma parsed_lines_ok (lines : list string) (ts : list float) (final_newline : bool) :
  forallb is_line lines = true -> parsed lines ts ->
  lines_ok lines final_newline = true.
Proof.
  intros Hl Hp. unfold lines_ok. rewrite Hl. cbn [andb].
  destruct final_newline; [reflexivity|]. cbn [orb].
  apply negb_true_iff, String.eqb_neq.
  destruct lines as [|l ls]; [discriminate|].
  intros Hlast.
  apply (parsed_in _ _ (last (l :: ls) "x") Hp).
  - apply last_in. discriminate.
  - rewrite Hlast. reflexivity.
Qed.

(** The arrays of a valid log: at least two lines, all numerals, and a
    period that is a numeral. *)
Lemma arrays_of_parsed (lines : list string) (cycle_time : string)
    (period t_0 t_1 : float) (ts : list float) :
  parsed lines (t_0 :: t_1 :: ts) ->
  float_of_string cycle_time = Some period ->
  arrays_of_lines lines cycle_time
  = Ok (map (fun t => fsub t t_1) (t_1 :: ts),
        map (fun v => fmul v usec) (latencies t_0 period 1 (t_1 :: ts))).
Proof.
  intros Hp Hc. unfold arrays_of_lines.
  pose proof (parsed_length _ _ Hp) as Hlen.
  rewrite (latency_loop_parsed lines cycle_time period t_0 (t_1 :: ts) Hp Hc).
  2:{ unfold xrange. apply Forall_forall. intros i Hi.
      apply in_seq in Hi. rewrite Hlen in Hi. cbn [List.length] in *. lia. }
  cbn [bind app].
  destruct lines as [|l ls]; [discriminate|].
  cbn [pop0 bind snd].
  rewrite (map_result_parsed ls (t_1 :: ts) (parsed_tail _ _ _ _ Hp)).
  cbn [bind index nth_error]. f_equal. f_equal. f_equal.
  unfold xrange. rewrite Hlen.
  change (List.length (t_0 :: t_1 :: ts) - 1) with (List.length (t_1 :: ts) - 0).
  rewrite Nat.sub_0_r.
  apply (latencies_by_index t_0 period [t_0] (t_1 :: ts)).
Qed.

Lemma parse_logfile_valid (fs : filesystem) (filename cycle_time : string)
    (headers lines : list string) (final_newline : bool)
    (period t_0 t_1 : float) (ts : list float) :
  fs filename = Some (logfile_text headers lines final_newline) ->
  header_ok headers = true ->
  forallb is_line lines = true ->
  parsed lines (t_0 :: t_1 :: ts) ->
  float_of_string cycle_time = Some period ->
  parse_logfile fs filename cycle_time
  = Ok (map (fun t => fsub t t_1) (t_1 :: ts),
        map (fun v => fmul v usec) (latencies t_0 period 1 (t_1 :: ts))).
Proof.
  intros Hfile Hh Hl Hp Hc.
  rewrite (parse_logfile_lines _ _ _ _ _ _ Hfile Hh
             (parsed_lines_ok _ _ _ Hl Hp)).
  now apply arrays_of_parsed.
Qed.

(** With two lines or more, a line that is no numeral stops the
    parser with the exception of [float]. *)
Lemma arrays_of_malformed (lines : list string) (cycle_time bad : string) :
  2 <= List.length lines -> In bad lines -> float_of_string bad = None ->
  arrays_of_lines lines cycle_time = Raise ValueError.
Proof.
  intros Hlen Hin Hbad. unfold arrays_of_lines.
  destruct (latency_loop lines cycle_time (xrange 1 (List.length lines)) [])
    as [l|e] eqn:Hloop.
  - exfalso. apply In_nth_error in Hin. destruct Hin as [i Hi].
    apply (latency_loop_read _ _ _ _ _ Hloop i bad); [|exact Hi|exact Hbad].
    assert (Hlt : i < List.length lines)
      by (apply nth_error_Some; congruence).
    unfold xrange. destruct i as [|i].
    + right. split; [reflexivity|].
      destruct (List.length lines) as [|[|n]]; try lia. discriminate.
    + left. apply in_seq. lia.
  - cbn [bind]. f_equal.
    apply (latency_loop_raises _ _ _) in Hloop; [exact Hloop|].
    unfold xrange. apply Forall_forall. intros i Hi. apply in_seq in Hi. lia.
Qed.

(** With one line the loop does not run and nothing is read as a float;
    the array [x] is empty and has no first element. *)
Lemma arrays_of_single (line cycle_time : string) :
  arrays_of_lines [line] cycle_time = Raise IndexError.
Proof. reflexivity. Qed.

End LogFile.

(** ** Properties of [parse_logfile] *)

(** C1. For a log of six header lines followed by [N >= 2] timestamp
    lines [t_0 .. t_(N-1)], all numerals, and a cycle time [c] that is a
    numeral, [parse_logfile] returns arrays [x] and [y] with, for every
    [j] in [0 .. N-2], [x[j] = t_(j+1) - t_1] and
    [y[j] = 1000000 * |t_(j+1) - (t_0 + c * (j+1))|]. *)
Theorem parse_logfile_formula (fs : filesystem) (filename cycle_time : string)
    (headers lines : list string) (final_newline : bool)
    (period t_0 t_1 : float) (ts : list float) :
  fs filename = Some (logfile_text headers lines final_newline) ->
  header_ok headers = true ->
  forallb is_line lines = true ->
  parsed lines (t_0 :: t_1 :: ts) ->
  float_of_string cycle_time = Some period ->
  exists x y,
    parse_logfile fs filename cycle_time = Ok (x, y) /\
    forall j t, nth_error (t_1 :: ts) j = Some t ->
      nth_error x j = Some (fsub t t_1) /\
      nth_error y j
      = Some (fmul (float_of_int 1000000)
                (fabs (fsub t (fadd t_0
                                 (fmul period (float_of_int (Z.of_nat (j + 1)))))))).
Proof.
  intros Hfile Hh Hl Hp Hc.
  rewrite (parse_logfile_valid _ _ _ _ _ _ _ _ _ _ Hfile Hh Hl Hp Hc).
  eexists. eexists. split; [reflexivity|].
  intros j t Hj. split.
  - now apply (map_nth_error (fun v => fsub v t_1)).
  - rewrite fmul_comm.
    change (nth_error (map (fun v => fmul v usec)
                         (latencies t_0 period 1 (t_1 :: ts))) j
            = Some (fmul (latency t_0 period (j + 1) t) usec)).
    rewrite Nat.add_comm.
    apply (map_nth_error (fun v => fmul v usec)).
    now apply latencies_nth.
Qed.

Lemma parse_logfile_formula_witness :
  exists x y,
    parse_logfile scenario_fs log_name "0.1" = Ok (x, y) /\
    forall j t, nth_error [the_float "10.1"; the_float "10.25"] j = Some t ->
      nth_error x j = Some (fsub t (the_float "10.1")) /\
      nth_error y j
      = Some (fmul (float_of_int 1000000)
                (fabs (fsub t (fadd (the_float "10.0")
                                 (fmul (the_float "0.1")
                                    (float_of_int (Z.of_nat (j + 1)))))))).
Proof.
  apply (parse_logfile_formula scenario_fs log_name "0.1"
           sample_headers scenario_lines true
           (the_float "0.1") (the_float "10.0") (the_float "10.1")
           [the_float "10.25"]); vm_compute; reflexivity.
Defined.

(** C2, as the code has it. For a log whose data section is the reference
    sample alone, [parse_logfile] returns no arrays: the loop does not
    run, the array [x] is empty, and taking its first element raises
    [IndexError]. *)
Theorem parse_logfile_single_sample (fs : filesystem)
    (filename cycle_time : string) (headers : list string) (line : string)
    (final_newline : bool) :
  fs filename = Some (logfile_text headers [line] final_newline) ->
  header_ok headers = true ->
  lines_ok [line] final_newline = true ->
  parse_logfile fs filename cycle_time = Raise IndexError.
Proof.
  intros Hfile Hh Hl.
  rewrite (parse_logfile_lines _ _ _ _ _ _ Hfile Hh Hl).
  apply arrays_of_single.
Qed.

Lemma parse_logfile_single_sample_witness :
  parse_logfile single_fs log_name "0.1" = Raise IndexError.
Proof.
  apply (parse_logfile_single_sample single_fs log_name "0.1"
           sample_headers "10.0" true); vm_compute; reflexivity.
Defined.

(** C2, as stated, fails: on six header lines and the one data line
    [10.0] the parser raises and so does not return two empty arrays. *)
Lemma single_sample_not_empty_arrays :
  header_ok sample_headers = true /\
  lines_ok ["10.0"] true = true /\
  parse_logfile single_fs log_name "0.1" = Raise IndexError /\
  parse_logfile single_fs log_name "0.1" <> Ok ([], []).
Proof.
  repeat split; try (vm_compute; reflexivity).
  vm_compute. discriminate.
Qed.

(** C3. For a valid log ([N >= 2] timestamp lines, all numerals) and a
    cycle time that is a numeral, the two arrays have the same length,
    [N - 1]. *)
Theorem parse_logfile_lengths (fs : filesystem) (filename cycle_time : string)
    (headers lines : list string) (final_newline : bool)
    (period t_0 t_1 : float) (ts : list float) :
  fs filename = Some (logfile_text headers lines final_newline) ->
  header_ok headers = true ->
  forallb is_line lines = true ->
  parsed lines (t_0 :: t_1 :: ts) ->
  float_of_string cycle_time = Some period ->
  exists x y,
    parse_logfile fs filename cycle_time = Ok (x, y) /\
    List.length x = List.length y /\
    List.length x = List.length lines - 1.
Proof.
  intros Hfile Hh Hl Hp Hc.
  rewrite (parse_logfile_valid _ _ _ _ _ _ _ _ _ _ Hfile Hh Hl Hp Hc).
  eexists. eexists. split; [reflexivity|].
  rewrite !length_map, latencies_length, (parsed_length _ _ Hp).
  cbn [List.length]. lia.
Qed.

Lemma parse_logfile_lengths_witness :
  exists x y,
    parse_logfile scenario_fs log_name "0.1" = Ok (x, y) /\
    List.length x = List.length y /\
    List.length x = List.length scenario_lines - 1.
Proof.
  apply (parse_logfile_lengths scenario_fs log_name "0.1"
           sample_headers scenario_lines true
           (the_float "0.1") (the_float "10.0") (the_float "10.1")
           [the_float "10.25"]); vm_compute; reflexivity.
Defined.

(** C4, as the code has it. For a valid log whose second timestamp is a
    finite float, the first element of [x] is [+0.0]. *)
Theorem first_elapsed_zero (fs : filesystem) (filename cycle_time : string)
    (headers lines : list string) (final_newline : bool)
    (period t_0 t_1 : float) (ts : list float) :
  fs filename = Some (logfile_text headers lines final_newline) ->
  header_ok headers = true ->
  forallb is_line lines = true ->
  parsed lines (t_0 :: t_1 :: ts) ->
  float_of_string cycle_time = Some period ->
  is_finite t_1 = true ->
  exists x y x_0,
    parse_logfile fs filename cycle_time = Ok (x, y) /\
    nth_error x 0 = Some x_0 /\
    x_0 = S754_zero false /\
    feqb x_0 (float_of_int 0) = true.
Proof.
  intros Hfile Hh Hl Hp Hc Hfin.
  rewrite (parse_logfile_valid _ _ _ _ _ _ _ _ _ _ Hfile Hh Hl Hp Hc).
  eexists. eexists. eexists. split; [reflexivity|].
  cbn [map nth_error]. rewrite (fsub_self _ Hfin).
  repeat split.
Qed.

Lemma first_elapsed_zero_witness :
  exists x y x_0,
    parse_logfile scenario_fs log_name "0.1" = Ok (x, y) /\
    nth_error x 0 = Some x_0 /\
    x_0 = S754_zero false /\
    feqb x_0 (float_of_int 0) = true.
Proof.
  apply (first_elapsed_zero scenario_fs log_name "0.1"
           sample_headers scenario_lines true
           (the_float "0.1") (the_float "10.0") (the_float "10.1")
           [the_float "10.25"]); vm_compute; reflexivity.
Defined.

(** C4, as stated, fails: the numeral [1e999] reads as infinity, and
    infinity minus itself is not a number, which is not equal to 0. *)
Lemma first_elapsed_nan :
  header_ok sample_headers = true /\
  forallb is_line overflow_lines = true /\
  parsed overflow_lines [the_float "1.0"; S754_infinity false] /\
  parse_logfile overflow_fs log_name "0.1"
  = Ok ([S754_nan], [S754_infinity false]) /\
  feqb S754_nan (float_of_int 0) = false.
Proof. repeat split; vm_compute; reflexivity. Qed.

(** Finite samples on the schedule have latency [+0.0], and so after
    the scaling to microseconds. *)
Lemma on_schedule_latencies (t_0 period : float) (ts : list float) :
  forall i,
    on_schedule t_0 period i ts = true ->
    forallb is_finite ts = true ->
    Forall (fun v => v = S754_zero false)
           (map (fun v => fmul v usec) (latencies t_0 period i ts)).
Proof.
  induction ts as [|t ts IH]; intros i Hs Hf; [constructor|].
  cbn [on_schedule] in Hs. apply andb_true_iff in Hs. destruct Hs as [Ht Hs].
  cbn [forallb] in Hf. apply andb_true_iff in Hf. destruct Hf as [Hft Hf].
  cbn [latencies map]. constructor.
  - unfold latency. unfold on_schedule_at in Ht.
    rewrite (latency_of_equal _ _ Hft Ht). apply fmul_zero_usec.
  - now apply IH.
Qed.

(** C5, as the code has it. For a valid log of finite timestamps that
    all lie on the schedule ([t_i == t_0 + c * i] for every [i]), every
    element of [y] is [+0.0]. *)
Theorem on_schedule_no_latency (fs : filesystem) (filename cycle_time : string)
    (headers lines : list string) (final_newline : bool)
    (period t_0 t_1 : float) (ts : list float) :
  fs filename = Some (logfile_text headers lines final_newline) ->
  header_ok headers = true ->
  forallb is_line lines = true ->
  parsed lines (t_0 :: t_1 :: ts) ->
  float_of_string cycle_time = Some period ->
  forallb is_finite (t_0 :: t_1 :: ts) = true ->
  on_schedule t_0 period 0 (t_0 :: t_1 :: ts) = true ->
  exists x y,
    parse_logfile fs filename cycle_time = Ok (x, y) /\
    Forall (fun v => v = S754_zero false) y.
Proof.
  intros Hfile Hh Hl Hp Hc Hfin Hs.
  rewrite (parse_logfile_valid _ _ _ _ _ _ _ _ _ _ Hfile Hh Hl Hp Hc).
  eexists. eexists. split; [reflexivity|].
  cbn [on_schedule] in Hs. apply andb_true_iff in Hs. destruct Hs as [_ Hs].
  cbn [forallb] in Hfin. apply andb_true_iff in Hfin. destruct Hfin as [_ Hfin].
  now apply on_schedule_latencies.
Qed.

Lemma on_schedule_no_latency_witness :
  exists x y,
    parse_logfile periodic_fs log_name "0.5" = Ok (x, y) /\
    Forall (fun v => v = S754_zero false) y.
Proof.
  apply (on_schedule_no_latency periodic_fs log_name "0.5"
           sample_headers periodic_lines true
           (the_float "0.5") (the_float "1.0") (the_float "1.5")
           [the_float "2.0"]); vm_compute; reflexivity.
Defined.

(** C5, as stated, fails: timestamps that all read as infinity lie on
    the schedule, infinity being equal to infinity plus any finite
    number, but their latency is not a number. *)
Lemma infinite_on_schedule_nan :
  header_ok sample_headers = true /\
  forallb is_line infinite_lines = true /\
  parsed infinite_lines [S754_infinity false; S754_infinity false] /\
  float_of_string "1.0" = Some (the_float "1.0") /\
  on_schedule (S754_infinity false) (the_float "1.0") 0
    [S754_infinity false; S754_infinity false] = true /\
  parse_logfile infinite_fs log_name "1.0" = Ok ([S754_nan], [S754_nan]) /\
  feqb S754_nan (float_of_int 0) = false.
Proof. repeat split; vm_compute; reflexivity. Qed.

(** C6. For a log of six header lines and at least two data lines, one
    of which is no numeral, [parse_logfile] returns no arrays: it fails
    with the [ValueError] of the numeric conversion. *)
Theorem parse_logfile_malformed (fs : filesystem) (filename cycle_time : string)
    (headers lines : list string) (final_newline : bool) (bad : string) :
  fs filename = Some (logfile_text headers lines final_newline) ->
  header_ok headers = true ->
  lines_ok lines final_newline = true ->
  2 <= List.length lines ->
  In bad lines ->
  float_of_string bad = None ->
  parse_logfile fs filename cycle_time = Raise ValueError.
Proof.
  intros Hfile Hh Hl Hlen Hin Hbad.
  rewrite (parse_logfile_lines _ _ _ _ _ _ Hfile Hh Hl).
  now apply (arrays_of_malformed lines cycle_time bad).
Qed.

Lemma parse_logfile_malformed_witness :
  parse_logfile malformed_fs log_name "0.1" = Raise ValueError.
Proof.
  apply (parse_logfile_malformed malformed_fs log_name "0.1"
           sample_headers malformed_lines true "n/a");
    try (vm_compute; reflexivity).
  - simpl. lia.
  - simpl. auto.
Defined.

(** C7, as the code has it. On six header lines of any content, the data
    lines [10.0], [10.1], [10.25] and the cycle time [0.1], the parser
    returns [x = [0.0, 0.15000000000000036]] and
    [y = [0.0, 50000.00000000071]]: the binary64 results of
    [10.25 - 10.1] and of [|10.25 - (10.0 + 0.1 * 2)| * 1000000]. *)
Theorem scenario_arrays (fs : filesystem) (filename : string)
    (headers : list string) (final_newline : bool) :
  fs filename = Some (logfile_text headers scenario_lines final_newline) ->
  header_ok headers = true ->
  parse_logfile fs filename "0.1"
  = Ok ([the_float "0.0"; the_float "0.15000000000000036"],
        [the_float "0.0"; the_float "50000.00000000071"]) /\
  the_float "0.15000000000000036" = S754_finite false 5404319552844608 (-55) /\
  the_float "50000.00000000071" = S754_finite false 6871947673600098 (-37).
Proof.
  intros Hfile Hh. split; [|split; vm_compute; reflexivity].
  rewrite (parse_logfile_valid fs filename "0.1" headers scenario_lines
             final_newline (the_float "0.1") (the_float "10.0")
             (the_float "10.1") [the_float "10.25"] Hfile Hh);
    vm_compute; reflexivity.
Qed.

Lemma scenario_arrays_witness :
  parse_logfile scenario_fs log_name "0.1"
  = Ok ([the_float "0.0"; the_float "0.15000000000000036"],
        [the_float "0.0"; the_float "50000.00000000071"]) /\
  the_float "0.15000000000000036" = S754_finite false 5404319552844608 (-55) /\
  the_float "50000.00000000071" = S754_finite false 6871947673600098 (-37).
Proof.
  apply (scenario_arrays scenario_fs log_name sample_headers true);
    vm_compute; reflexivity.
Defined.

(** C7, as stated, fails: the second elements are not the floats [0.15]
    and [50000.0], neither as values nor under Python's [==]. *)
Lemma scenario_not_rounded :
  header_ok sample_headers = true /\
  parse_logfile scenario_fs log_name "0.1"
  <> Ok ([the_float "0.0"; the_float "0.15"],
         [the_float "0.0"; the_float "50000.0"]) /\
  feqb (the_float "0.15000000000000036") (the_float "0.15") = false /\
  feqb (the_float "50000.00000000071") (the_float "50000.0") = false.
Proof.
  repeat split; try (vm_compute; reflexivity).
  vm_compute. discriminate.
Qed.

(** The parser as a step of the world. *)







(** C9. The content of the six header lines has no influence: two logs
    that differ in their first six lines only give the same outcome for
    the same cycle time. *)
Theorem header_content_ignored (fs1 fs2 : filesystem)
    (filename cycle_time : string) (headers1 headers2 : list string)
    (data : string) :
  fs1 filename = Some (unlines headers1 ++ data)%string ->
  fs2 filename = Some (unlines headers2 ++ data)%string ->
  header_ok headers1 = true ->
  header_ok headers2 = true ->
  parse_logfile fs1 filename cycle_time = parse_logfile fs2 filename cycle_time.
Proof.
  intros H1 H2 Hh1 Hh2.
  rewrite (parse_logfile_data _ _ _ _ _ H1 Hh1).
  now rewrite (parse_logfile_data _ _ _ _ _ H2 Hh2).
Qed.

Lemma header_content_ignored_witness :
  parse_logfile scenario_fs log_name "0.1"
  = parse_logfile
      (single_file log_name (logfile_text other_headers scenario_lines true))
      log_name "0.1".
Proof.
  apply (header_content_ignored scenario_fs
           (single_file log_name (logfile_text other_headers scenario_lines true))
           log_name "0.1" sample_headers other_headers
           (unlines scenario_lines)); reflexivity.
Defined.

(** C10. One newline after the last timestamp line is tolerated: the
    empty piece after it is dropped when the data section is cut into
    lines, and a valid log returns the same arrays with and without it.
    A blank line more, anywhere among the lines of a data section or at
    its end, be it one of several, stays among the lines as the empty
    string, is handed to [float], and makes [parse_logfile] fail with
    [ValueError] whatever the other lines and the cycle time are: it is
    not skipped. *)
Theorem trailing_newline_blank_line (fs_bare fs_newline fs_blank : filesystem)
    (filename cycle_time any_cycle_time : string)
    (headers timestamps before after : list string) (final_newline : bool)
    (period t_0 t_1 : float) (ts : list float) :
  header_ok headers = true ->
  forallb is_line timestamps = true ->
  parsed timestamps (t_0 :: t_1 :: ts) ->
  float_of_string cycle_time = Some period ->
  fs_bare filename = Some (logfile_text headers timestamps false) ->
  fs_newline filename = Some (logfile_text headers timestamps true) ->
  before ++ after <> [] ->
  lines_ok (before ++ EmptyString :: after) final_newline = true ->
  fs_blank filename
  = Some (logfile_text headers (before ++ EmptyString :: after) final_newline) ->
  (splitlines (unlines timestamps) = timestamps /\
   splitlines (join_lines timestamps) = timestamps /\
   parse_logfile fs_newline filename cycle_time
   = Ok (map (fun t => fsub t t_1) (t_1 :: ts),
         map (fun v => fmul v (float_of_int 1000000))
           (latencies t_0 period 1 (t_1 :: ts))) /\
   parse_logfile fs_bare filename cycle_time
   = parse_logfile fs_newline filename cycle_time) /\
  (splitlines (if final_newline
               then unlines (before ++ EmptyString :: after)
               else join_lines (before ++ EmptyString :: after))
   = before ++ EmptyString :: after /\
   float_ EmptyString = Raise ValueError /\
   parse_logfile fs_blank filename any_cycle_time = Raise ValueError).
Proof.
  intros Hh Hl Hp Hc Hfb Hfn Hne Hblank Hfk.
  pose proof (parsed_lines_ok _ _ true Hl Hp) as Hnl.
  pose proof (parsed_lines_ok _ _ false Hl Hp) as Hbare.
  split; [|split; [|split]].
  - repeat split.
    + apply (splitlines_data _ true Hnl).
    + apply (splitlines_data _ false Hbare).
    + apply (parse_logfile_valid _ _ _ _ _ _ _ _ _ _ Hfn Hh Hl Hp Hc).
    + rewrite (parse_logfile_lines _ _ _ _ _ _ Hfn Hh Hnl).
      now rewrite (parse_logfile_lines _ _ _ _ _ _ Hfb Hh Hbare).
  - apply (splitlines_data _ _ Hblank).
  - reflexivity.
  - rewrite (parse_logfile_lines _ _ _ _ _ _ Hfk Hh Hblank).
    apply (arrays_of_malformed _ any_cycle_time EmptyString).
    + rewrite length_app. cbn [List.length].
      destruct before, after; cbn [List.length app] in *; try lia.
      now elim Hne.
    + apply in_elt.
    + apply float_of_empty.
Qed.

Lemma trailing_newline_blank_line_witness :
  (splitlines (unlines scenario_lines) = scenario_lines /\
   splitlines (join_lines scenario_lines) = scenario_lines /\
   parse_logfile scenario_fs log_name "0.1"
   = Ok (map (fun t => fsub t (the_float "10.1"))
           [the_float "10.1"; the_float "10.25"],
         map (fun v => fmul v (float_of_int 1000000))
           (latencies (the_float "10.0") (the_float "0.1") 1
              [the_float "10.1"; the_float "10.25"])) /\
   parse_logfile
     (single_file log_name (logfile_text sample_headers scenario_lines false))
     log_name "0.1"
   = parse_logfile scenario_fs log_name "0.1") /\
  (splitlines (unlines ["10.0"; "10.1"; ""; ""]) = ["10.0"; "10.1"; ""; ""] /\
   float_ EmptyString = Raise ValueError /\
   parse_logfile
     (single_file log_name
        (logfile_text sample_headers ["10.0"; "10.1"; ""; ""] true))
     log_name "fast"
   = Raise ValueError).
Proof.
  apply (trailing_newline_blank_line
           (single_file log_name (logfile_text sample_headers scenario_lines false))
           scenario_fs
           (single_file log_name
              (logfile_text sample_headers ["10.0"; "10.1"; ""; ""] true))
           log_name "0.1" "fast" sample_headers scenario_lines
           ["10.0"; "10.1"; ""] [] true
           (the_float "0.1") (the_float "10.0") (the_float "10.1")
           [the_float "10.25"]);
    try (vm_compute; reflexivity).
  discriminate.
Defined.


(** ** Further facts on the loop and the arrays *)

Section MoreParserFacts.

Variables (timestamps : list string) (cycle_time : string).

(** One turn of the loop that ends normally. *)
Lemma latency_loop_turn (i : nat) (indices : list nat) (acc l : list float) :
  latency_loop timestamps cycle_time (i :: indices) acc = Ok l ->
  exists s t s_0 t_0 period,
    nth_error timestamps i = Some s /\ float_of_string s = Some t /\
    nth_error timestamps 0 = Some s_0 /\ float_of_string s_0 = Some t_0 /\
    float_of_string cycle_time = Some period /\
    latency_loop timestamps cycle_time indices
      (acc ++ [latency t_0 period i t]) = Ok l.
Proof.
  cbn [latency_loop]. unfold index, float_. intros H.
  destruct (nth_error timestamps i) as [s|] eqn:Hs; [|discriminate].
  cbn [bind] in H.
  destruct (float_of_string s) as [t|] eqn:Ht; [|discriminate].
  cbn [bind] in H.
  destruct (nth_error timestamps 0) as [s_0|] eqn:Hs0; [|discriminate].
  cbn [bind] in H.
  destruct (float_of_string s_0) as [t_0|] eqn:Ht0; [|discriminate].
  cbn [bind] in H.
  destruct (float_of_string cycle_time) as [period|] eqn:Hc; [|discriminate].
  cbn [bind] in H.
  exists s, t, s_0, t_0, period. repeat split; assumption.
Qed.

(** The loop appends one latency per index. *)
Lemma latency_loop_length (indices : list nat) :
  forall acc l,
    latency_loop timestamps cycle_time indices acc = Ok l ->
    List.length l = List.length acc + List.length indices.
Proof.
  induction indices as [|i indices IH]; intros acc l H.
  - injection H as <-. simpl. lia.
  - apply latency_loop_turn in H.
    destruct H as (s & t & s_0 & t_0 & period & _ & _ & _ & _ & _ & H).
    rewrite (IH _ _ H), length_app. simpl. lia.
Qed.

(** What holds of every absolute value holds of every latency. *)
Lemma latency_loop_all (P : float -> Prop) (indices : list nat) :
  (forall v, P (fabs v)) ->
  forall acc l,
    latency_loop timestamps cycle_time indices acc = Ok l ->
    Forall P acc -> Forall P l.
Proof.
  intros Habs. induction indices as [|i indices IH]; intros acc l H Hacc.
  - now injection H as <-.
  - apply latency_loop_turn in H.
    destruct H as (s & t & s_0 & t_0 & period & _ & _ & _ & _ & _ & H).
    apply (IH _ _ H). apply Forall_app. split; [assumption|].
    constructor; [apply Habs|constructor].
Qed.

End MoreParserFacts.

Section MoreArrayFacts.

Lemma map_result_float_parsed (lines : list string) :
  forall xs, map_result float_ lines = Ok xs -> parsed lines xs.
Proof.
  unfold parsed.
  induction lines as [|l ls IH]; intros xs H.
  - now injection H as <-.
  - cbn [map_result] in H. unfold float_ at 1 in H.
    destruct (float_of_string l) as [t|] eqn:Hl; [|discriminate].
    cbn [bind] in H.
    destruct (map_result float_ ls) as [ts|] eqn:Hls; [|discriminate].
    cbn [bind] in H. injection H as <-.
    simpl. now rewrite Hl, (IH ts eq_refl).
Qed.

Lemma map_result_float_raises (lines : list string) (e : exception) :
  map_result float_ lines = Raise e -> e = ValueError.
Proof.
  induction lines as [|l ls IH]; [discriminate|].
  cbn [map_result]. unfold float_ at 1.
  destruct (float_of_string l); cbn [bind]; [|congruence].
  destruct (map_result float_ ls); cbn [bind]; [discriminate|].
  intros H. injection H as <-. now apply IH.
Qed.

(** What a normal end of the parser tells about the data lines. *)
Lemma arrays_of_lines_ok (lines : list string) (cycle_time : string)
    (x y : list float) :
  arrays_of_lines lines cycle_time = Ok (x, y) ->
  exists l_0 ls lat xs x_0,
    lines = l_0 :: ls /\
    latency_loop lines cycle_time (xrange 1 (List.length lines)) [] = Ok lat /\
    parsed ls xs /\
    nth_error xs 0 = Some x_0 /\
    x = map (fun v => fsub v x_0) xs /\
    y = map (fun v => fmul v usec) lat.
Proof.
  unfold arrays_of_lines. intros H.
  destruct (latency_loop lines cycle_time (xrange 1 (List.length lines)) [])
    as [lat|] eqn:Hloop; [|discriminate].
  cbn [bind] in H.
  destruct lines as [|l_0 ls]; [discriminate|].
  cbn [pop0 bind snd] in H.
  destruct (map_result float_ ls) as [xs|] eqn:Hxs; [|discriminate].
  cbn [bind] in H. unfold index in H.
  destruct (nth_error xs 0) as [x_0|] eqn:Hx0; [|discriminate].
  cbn [bind] in H. injection H as <- <-.
  exists l_0, ls, lat, xs, x_0. repeat split; try assumption.
  now apply map_result_float_parsed.
Qed.

(** The parser proper raises nothing but [IndexError] and [ValueError]. *)
Lemma arrays_of_lines_raises (lines : list string) (cycle_time : string)
    (e : exception) :
  arrays_of_lines lines cycle_time = Raise e ->
  e = IndexError \/ e = ValueError.
Proof.
  unfold arrays_of_lines. intros H.
  destruct (latency_loop lines cycle_time (xrange 1 (List.length lines)) [])
    as [lat|e'] eqn:Hloop.
  - cbn [bind] in H. destruct lines as [|l_0 ls].
    + left. cbn in H. congruence.
    + cbn [pop0 bind snd] in H.
      destruct (map_result float_ ls) as [xs|e''] eqn:Hxs.
      * cbn [bind] in H. unfold index in H.
        destruct (nth_error xs 0); cbn [bind] in H; [discriminate|].
        left. congruence.
      * cbn [bind] in H. injection H as <-. right.
        now apply (map_result_float_raises ls).
  - cbn [bind] in H. injection H as <-. right.
    apply (latency_loop_raises _ _ _) in Hloop; [exact Hloop|].
    unfold xrange. apply Forall_forall. intros i Hi. apply in_seq in Hi. lia.
Qed.

(** What a normal end of [parse_logfile] tells about the file. *)
Lemma parse_logfile_ok (fs : filesystem) (filename cycle_time : string)
    (x y : list float) :
  parse_logfile fs filename cycle_time = Ok (x, y) ->
  exists data rest,
    fs filename = Some data /\
    index (split LF 6 data) 6 = Ok rest /\
    arrays_of_lines (splitlines rest) cycle_time = Ok (x, y).
Proof.
  rewrite parse_logfile_eq. unfold read_file. intros H.
  destruct (fs filename) as [data|]; [|discriminate].
  cbn [bind] in H.
  destruct (index (split LF 6 data) 6) as [rest|] eqn:Hrest; [|discriminate].
  cbn [bind] in H. now exists data, rest.
Qed.

Lemma latencies_app (t_0 period : float) (ts ts' : list float) :
  forall i,
    latencies t_0 period i (ts ++ ts')
    = latencies t_0 period i ts
      ++ latencies t_0 period (i + List.length ts) ts'.
Proof.
  induction ts as [|t ts IH]; intros i; simpl.
  - now rewrite Nat.add_0_r.
  - rewrite IH. now rewrite Nat.add_succ_r.
Qed.

(** Lines that are all numerals are read as some floats. *)
Lemma parsed_exists (lines : list string) :
  (forall s, In s lines -> float_of_string s <> None) ->
  exists ts, parsed lines ts.
Proof.
  unfold parsed. induction lines as [|l ls IH]; intros H.
  - now exists [].
  - destruct IH as [ts Hts]; [intros s Hs; apply H; now right|].
    destruct (float_of_string l) as [t|] eqn:Hl.
    + exists (t :: ts). simpl. now rewrite Hl, Hts.
    + exfalso. apply (H l); [now left|assumption].
Qed.

End MoreArrayFacts.

(** ** Further facts on floats and strings *)

Section MoreFloatFacts.

Lemma sign_clear_fabs (v : float) : sign_clear (fabs v) = true.
Proof. now destruct v. Qed.

(** Rounding keeps the sign it is given. *)
Lemma sign_clear_round (m e : Z) (loc : location) :
  sign_clear (binary_round_aux prec emax false m e loc) = true.
Proof.
  unfold binary_round_aux.
  destruct (shr_fexp prec emax m e loc) as [mrs' e'].
  destruct (shr_fexp prec emax _ e' loc_Exact) as [mrs'' e''].
  destruct (shr_m mrs''); try reflexivity.
  now destruct (Z.leb e'' (emax - prec)).
Qed.

Lemma sign_clear_usec (v : float) :
  sign_clear v = true -> sign_clear (fmul v usec) = true.
Proof.
  change usec with (S754_finite false 8589934592000000 (-33)).
  destruct v as [s|s| |s m e]; simpl; intros H; try reflexivity;
    apply negb_true_iff in H; subst s; try reflexivity.
  apply sign_clear_round.
Qed.

Lemma sign_clear_not_negative (v : float) :
  sign_clear v = true ->
  fleb (float_of_int 0) v = true \/ v = S754_nan.
Proof.
  destruct v as [s|s| |s m e]; simpl; intros H; auto;
    apply negb_true_iff in H; subst s; now left.
Qed.

(** A float minus itself is [+0.0], or not a number. *)
Lemma fsub_diag (v : float) :
  fsub v v = S754_zero false \/ fsub v v = S754_nan.
Proof.
  destruct (is_finite v) eqn:Hv.
  - left. now apply fsub_self.
  - right. destruct v as [s|s| |s m e]; try discriminate; [now destruct s|reflexivity].
Qed.

End MoreFloatFacts.

Section MoreStringFacts.

Lemma split_not_nil (sep : ascii) (n : nat) (s : string) : split sep n s <> [].
Proof.
  destruct s as [|c r]; [discriminate|].
  destruct n as [|m]; [discriminate|]. cbn [split].
  destruct (Ascii.eqb c sep); [discriminate|].
  destruct (split sep (S m) r); discriminate.
Qed.

(** The number of pieces: one more than the number of cuts. *)
Lemma split_length (sep : ascii) (s : string) :
  forall n, List.length (split sep n s) = S (Nat.min n (count_char sep s)).
Proof.
  induction s as [|c r IH]; intros n.
  - simpl. now rewrite Nat.min_0_r.
  - destruct n as [|m]; [reflexivity|].
    cbn [split count_char]. destruct (Ascii.eqb c sep).
    + cbn [List.length]. rewrite IH. now rewrite <- Nat.succ_min_distr.
    + specialize (IH (S m)).
      destruct (split sep (S m) r) as [|piece pieces]; [discriminate|].
      exact IH.
Qed.

Lemma no_char_app (a : ascii) (s t : string) :
  no_char a (s ++ t) = (no_char a s && no_char a t)%bool.
Proof.
  induction s as [|c s IH]; simpl; [reflexivity|].
  now rewrite IH, andb_assoc.
Qed.

(** A line terminated by a carriage return and a newline is cut off
    whole. *)
Lemma splitlines_crlf_terminated (l t : string) :
  is_line l = true ->
  splitlines (l ++ String CR (String LF t)) = l :: splitlines t.
Proof.
  induction l as [|c l IH]; intros Hl.
  - reflexivity.
  - apply is_line_cons in Hl. destruct Hl as (Hlf & Hcr & Hl).
    change ((String c l ++ String CR (String LF t))%string)
      with (String c (l ++ String CR (String LF t))).
    cbn [splitlines]. rewrite Hlf, Hcr. now rewrite (IH Hl).
Qed.

Lemma splitlines_unlines_crlf (lines : list string) :
  forallb is_line lines = true -> splitlines (unlines_crlf lines) = lines.
Proof.
  induction lines as [|l ls IH]; intros H; [reflexivity|].
  simpl in H. apply andb_true_iff in H. destruct H as [Hl Hls].
  cbn [unlines_crlf]. rewrite (splitlines_crlf_terminated _ _ Hl).
  now rewrite (IH Hls).
Qed.

(** For [split] the carriage return of a header line is part of the
    line. *)
Lemma unlines_crlf_unlines (lines : list string) :
  unlines_crlf lines = unlines (map (fun l => l ++ String CR EmptyString)%string lines).
Proof.
  induction lines as [|l ls IH]; [reflexivity|].
  cbn [unlines_crlf map unlines]. rewrite append_assoc, IH. reflexivity.
Qed.

Lemma header_ok_crlf (headers : list string) :
  header_ok headers = true ->
  header_ok (map (fun l => l ++ String CR EmptyString)%string headers) = true.
Proof.
  unfold header_ok. intros H. apply andb_true_iff in H. destruct H as [Hn Hh].
  rewrite length_map, Hn. cbn [andb].
  rewrite forallb_forall in Hh |- *. intros s Hs.
  apply in_map_iff in Hs. destruct Hs as (h & <- & Hin).
  rewrite no_char_app, (Hh h Hin). reflexivity.
Qed.

End MoreStringFacts.

(** ** The outcomes of the parser on two lines or more *)

Section Outcomes.

(** Either every line is a numeral or some line is none. *)
Lemma numerals_or_not (lines : list string) :
  (forall s, In s lines -> float_of_string s <> None) \/
  (exists bad, In bad lines /\ float_of_string bad = None).
Proof.
  induction lines as [|l ls [IH|(bad & Hin & Hbad)]].
  - left. intros s [].
  - destruct (float_of_string l) eqn:Hl.
    + left. intros s [<-|Hs]; [congruence|now apply IH].
    + right. exists l. split; [now left|assumption].
  - right. exists bad. split; [now right|assumption].
Qed.

(** With two lines or more the loop runs and reads the cycle time. *)
Lemma arrays_of_bad_cycle_time (lines : list string) (cycle_time : string) :
  2 <= List.length lines -> float_of_string cycle_time = None ->
  arrays_of_lines lines cycle_time = Raise ValueError.
Proof.
  intros Hlen Hc. unfold arrays_of_lines.
  destruct (latency_loop lines cycle_time (xrange 1 (List.length lines)) [])
    as [lat|e] eqn:Hloop.
  - exfalso. destruct lines as [|a [|b ls]]; simpl in Hlen; try lia.
    unfold xrange in Hloop. cbn [List.length Nat.sub seq] in Hloop.
    apply latency_loop_turn in Hloop.
    destruct Hloop as (s & t & s_0 & t_0 & period & _ & _ & _ & _ & Hp & _).
    congruence.
  - cbn [bind]. f_equal.
    apply (latency_loop_raises _ _ _) in Hloop; [exact Hloop|].
    unfold xrange. apply Forall_forall. intros i Hi. apply in_seq in Hi. lia.
Qed.

Lemma arrays_of_numerals (lines : list string) (cycle_time : string) :
  2 <= List.length lines ->
  (forall s, In s lines -> float_of_string s <> None) ->
  float_of_string cycle_time <> None ->
  exists x y, arrays_of_lines lines cycle_time = Ok (x, y).
Proof.
  intros Hlen Hall Hc.
  destruct (parsed_exists lines Hall) as [ts Hts].
  pose proof (parsed_length _ _ Hts) as Hl.
  destruct ts as [|t_0 [|t_1 ts]]; simpl in Hl; try lia.
  destruct (float_of_string cycle_time) as [period|] eqn:Hp; [|congruence].
  rewrite (arrays_of_parsed lines cycle_time period t_0 t_1 ts Hts Hp).
  eexists. eexists. reflexivity.
Qed.

End Outcomes.

(** ** Properties of the parser on any input *)

(** X1. Whatever the file holds, when [parse_logfile] returns, the two
    arrays have the same length, at least one element, and one element
    less than the data section has lines. *)
Theorem returned_arrays_shape (fs : filesystem) (filename cycle_time : string)
    (x y : list float) :
  parse_logfile fs filename cycle_time = Ok (x, y) ->
  List.length x = List.length y /\
  1 <= List.length x /\
  exists data rest,
    fs filename = Some data /\
    nth_error (split LF 6 data) 6 = Some rest /\
    List.length (splitlines rest) = S (List.length x).
Proof.
  intros H. apply parse_logfile_ok in H.
  destruct H as (data & rest & Hfile & Hrest & H).
  apply arrays_of_lines_ok in H.
  destruct H as (l_0 & ls & lat & xs & x_0 & Hl & Hloop & Hxs & Hx0 & -> & ->).
  apply latency_loop_length in Hloop. apply parsed_length in Hxs.
  rewrite !length_map, Hloop. unfold xrange. rewrite length_seq, Hl.
  cbn [List.length]. rewrite Nat.sub_succ, Nat.sub_0_r, Nat.add_0_l.
  repeat split.
  - now symmetry.
  - rewrite <- Hxs. destruct ls; [|simpl; lia].
    destruct xs; discriminate.
  - exists data, rest. repeat split; try assumption.
    + unfold index in Hrest.
      destruct (nth_error (split LF 6 data) 6); congruence.
    + rewrite Hl. simpl. now rewrite Hxs.
Qed.

Lemma returned_arrays_shape_witness :
  List.length scenario_x = List.length scenario_y /\
  1 <= List.length scenario_x /\
  exists data rest,
    scenario_fs log_name = Some data /\
    nth_error (split LF 6 data) 6 = Some rest /\
    List.length (splitlines rest) = S (List.length scenario_x).
Proof.
  apply (returned_arrays_shape scenario_fs log_name "0.1" scenario_x scenario_y).
  vm_compute. reflexivity.
Defined.

(** X2. Whatever the file holds, when [parse_logfile] returns, no
    element of [y] is negative: each one is not a number or satisfies
    [0 <= y[i]]. *)
Theorem returned_latencies_not_negative (fs : filesystem)
    (filename cycle_time : string) (x y : list float) :
  parse_logfile fs filename cycle_time = Ok (x, y) ->
  Forall (fun v => fleb (float_of_int 0) v = true \/ v = S754_nan) y.
Proof.
  intros H. apply parse_logfile_ok in H.
  destruct H as (data & rest & _ & _ & H).
  apply arrays_of_lines_ok in H.
  destruct H as (l_0 & ls & lat & xs & x_0 & _ & Hloop & _ & _ & _ & ->).
  apply (latency_loop_all _ _ (fun v => sign_clear v = true)) in Hloop;
    [|apply sign_clear_fabs|constructor].
  apply Forall_map. apply (Forall_impl _ (P := fun v => sign_clear v = true));
    [|exact Hloop].
  intros v Hv. now apply sign_clear_not_negative, sign_clear_usec.
Qed.

Lemma returned_latencies_not_negative_witness :
  Forall (fun v => fleb (float_of_int 0) v = true \/ v = S754_nan) scenario_y.
Proof.
  apply (returned_latencies_not_negative scenario_fs log_name "0.1"
           scenario_x scenario_y).
  vm_compute. reflexivity.
Defined.

(** X3. Whatever the file holds, when [parse_logfile] returns, the first
    element of [x] is [+0.0] or not a number: it is never another
    number, and never [-0.0]. *)
Theorem returned_first_elapsed (fs : filesystem) (filename cycle_time : string)
    (x y : list float) :
  parse_logfile fs filename cycle_time = Ok (x, y) ->
  exists v, nth_error x 0 = Some v /\ (v = S754_zero false \/ v = S754_nan).
Proof.
  intros H. apply parse_logfile_ok in H.
  destruct H as (data & rest & _ & _ & H).
  apply arrays_of_lines_ok in H.
  destruct H as (l_0 & ls & lat & xs & x_0 & _ & _ & _ & Hx0 & -> & _).
  exists (fsub x_0 x_0). split; [|apply fsub_diag].
  now apply (map_nth_error (fun v => fsub v x_0)).
Qed.

Lemma returned_first_elapsed_witness :
  exists v, nth_error [S754_nan] 0 = Some v /\
            (v = S754_zero false \/ v = S754_nan).
Proof.
  apply (returned_first_elapsed overflow_fs log_name "0.1"
           [S754_nan] [S754_infinity false]).
  vm_compute. reflexivity.
Defined.

(** X4. [parse_logfile] fails with [IOError] when the file cannot be
    read, and in no other case. *)
Theorem io_error_iff_no_file (fs : filesystem) (filename cycle_time : string) :
  parse_logfile fs filename cycle_time = Raise IOError <-> fs filename = None.
Proof.
  rewrite parse_logfile_eq. unfold read_file. split.
  - destruct (fs filename) as [data|]; [|reflexivity].
    cbn [bind]. unfold index.
    destruct (nth_error (split LF 6 data) 6) as [rest|]; cbn [bind];
      [|discriminate].
    intros H. apply arrays_of_lines_raises in H. destruct H; discriminate.
  - intros ->. reflexivity.
Qed.

(** X5. A file with fewer than six newlines has no data section:
    [parse_logfile] fails with [IndexError], whatever the cycle time. *)
Theorem too_few_newlines (fs : filesystem) (filename cycle_time data : string) :
  fs filename = Some data ->
  count_char LF data < 6 ->
  parse_logfile fs filename cycle_time = Raise IndexError.
Proof.
  intros Hfile Hcount. rewrite parse_logfile_eq. unfold read_file.
  rewrite Hfile. cbn [bind]. unfold index.
  destruct (nth_error (split LF 6 data) 6) eqn:Hnth; [|reflexivity].
  exfalso.
  assert (Hlt : 6 < List.length (split LF 6 data))
    by (apply nth_error_Some; congruence).
  rewrite split_length in Hlt. lia.
Qed.

Lemma too_few_newlines_witness :
  parse_logfile
    (single_file log_name (unlines ["# rt_test"; "10.0"; "10.1"; "10.25"]))
    log_name "0.1"
  = Raise IndexError.
Proof.
  apply (too_few_newlines _ log_name "0.1"
           (unlines ["# rt_test"; "10.0"; "10.1"; "10.25"])).
  - reflexivity.
  - vm_compute. lia.
Defined.

(** ** Properties of the parser on log files *)

(** X6. On a log file, [parse_logfile] returns arrays exactly when the
    data section has two lines or more, every line is a numeral, and
    the cycle time is a numeral. *)
Theorem returns_iff_numerals (fs : filesystem) (filename cycle_time : string)
    (headers lines : list string) (final_newline : bool) :
  fs filename = Some (logfile_text headers lines final_newline) ->
  header_ok headers = true ->
  lines_ok lines final_newline = true ->
  (exists x y, parse_logfile fs filename cycle_time = Ok (x, y)) <->
  (2 <= List.length lines /\
   (forall s, In s lines -> float_of_string s <> None) /\
   float_of_string cycle_time <> None).
Proof.
  intros Hfile Hh Hl.
  rewrite (parse_logfile_lines _ _ _ _ _ _ Hfile Hh Hl). split.
  - intros (x & y & H).
    assert (Hlen : 2 <= List.length lines).
    { apply arrays_of_lines_ok in H.
      destruct H as (l_0 & ls & lat & xs & x_0 & -> & _ & Hxs & Hx0 & _).
      apply parsed_length in Hxs. destruct xs; [discriminate|].
      simpl in *. lia. }
    split; [exact Hlen|]. split.
    + intros s Hs Hbad.
      rewrite (arrays_of_malformed lines cycle_time s Hlen Hs Hbad) in H.
      discriminate.
    + intros Hbad.
      rewrite (arrays_of_bad_cycle_time lines cycle_time Hlen Hbad) in H.
      discriminate.
  - intros (Hlen & Hall & Hc). now apply arrays_of_numerals.
Qed.

Lemma returns_iff_numerals_witness :
  (exists x y, parse_logfile scenario_fs log_name "0.1" = Ok (x, y)) <->
  (2 <= List.length scenario_lines /\
   (forall s, In s scenario_lines -> float_of_string s <> None) /\
   float_of_string "0.1" <> None).
Proof.
  apply (returns_iff_numerals scenario_fs log_name "0.1"
           sample_headers scenario_lines true); reflexivity.
Defined.

(** X7. On a log file, [parse_logfile] fails with [IndexError] exactly
    when the data section has fewer than two lines: no line, or the
    reference sample alone. *)
Theorem index_error_iff_short (fs : filesystem) (filename cycle_time : string)
    (headers lines : list string) (final_newline : bool) :
  fs filename = Some (logfile_text headers lines final_newline) ->
  header_ok headers = true ->
  lines_ok lines final_newline = true ->
  parse_logfile fs filename cycle_time = Raise IndexError <->
  List.length lines <= 1.
Proof.
  intros Hfile Hh Hl.
  rewrite (parse_logfile_lines _ _ _ _ _ _ Hfile Hh Hl). split.
  - intros H. destruct (le_lt_dec (List.length lines) 1) as [|Hlen]; [assumption|].
    exfalso. destruct (float_of_string cycle_time) eqn:Hc.
    + destruct (numerals_or_not lines) as [Hall|(bad & Hin & Hbad)].
      * destruct (arrays_of_numerals lines cycle_time Hlen Hall) as (x & y & Hxy);
          congruence.
      * rewrite (arrays_of_malformed lines cycle_time bad Hlen Hin Hbad) in H.
        discriminate.
    + rewrite (arrays_of_bad_cycle_time lines cycle_time Hlen Hc) in H.
      discriminate.
  - intros Hlen. destruct lines as [|l [|l' ls]]; simpl in Hlen; try lia;
      reflexivity.
Qed.

Lemma index_error_iff_short_witness :
  parse_logfile single_fs log_name "0.1" = Raise IndexError <->
  List.length ["10.0"] <= 1.
Proof.
  apply (index_error_iff_short single_fs log_name "0.1"
           sample_headers ["10.0"] true); reflexivity.
Defined.

(** X8. On a log file with two data lines or more, a cycle time that is
    no numeral makes [parse_logfile] fail with [ValueError], whatever
    the lines hold. *)
Theorem bad_cycle_time (fs : filesystem) (filename cycle_time : string)
    (headers lines : list string) (final_newline : bool) :
  fs filename = Some (logfile_text headers lines final_newline) ->
  header_ok headers = true ->
  lines_ok lines final_newline = true ->
  2 <= List.length lines ->
  float_of_string cycle_time = None ->
  parse_logfile fs filename cycle_time = Raise ValueError.
Proof.
  intros Hfile Hh Hl Hlen Hc.
  rewrite (parse_logfile_lines _ _ _ _ _ _ Hfile Hh Hl).
  now apply arrays_of_bad_cycle_time.
Qed.

Lemma bad_cycle_time_witness :
  parse_logfile scenario_fs log_name "100ms" = Raise ValueError.
Proof.
  apply (bad_cycle_time scenario_fs log_name "100ms"
           sample_headers scenario_lines true); try reflexivity.
  simpl. lia.
Defined.

(** X9. Line ends of a carriage return and a newline change nothing: a
    log written with them throughout gives the same outcome as the log
    written with newlines. *)
Theorem crlf_line_ends (fs_crlf fs_lf : filesystem)
    (filename cycle_time : string) (headers lines : list string) :
  fs_crlf filename = Some (unlines_crlf headers ++ unlines_crlf lines)%string ->
  fs_lf filename = Some (logfile_text headers lines true) ->
  header_ok headers = true ->
  forallb is_line lines = true ->
  parse_logfile fs_crlf filename cycle_time
  = parse_logfile fs_lf filename cycle_time.
Proof.
  intros Hcrlf Hlf Hh Hl.
  rewrite unlines_crlf_unlines in Hcrlf.
  rewrite (parse_logfile_data _ _ _ _ _ Hcrlf (header_ok_crlf _ Hh)).
  rewrite (splitlines_unlines_crlf _ Hl).
  symmetry. apply (parse_logfile_lines _ _ _ _ _ _ Hlf Hh).
  unfold lines_ok. now rewrite Hl.
Qed.

Lemma crlf_line_ends_witness :
  parse_logfile
    (single_file log_name
       (unlines_crlf sample_headers ++ unlines_crlf scenario_lines))
    log_name "0.1"
  = parse_logfile scenario_fs log_name "0.1".
Proof.
  apply (crlf_line_ends _ scenario_fs log_name "0.1"
           sample_headers scenario_lines); reflexivity.
Defined.

(** X10. The array [x] depends on the samples after the reference
    sample only: two valid logs with the same lines after the first
    data line give the same [x], whatever their reference samples and
    their cycle times. *)
Theorem elapsed_ignores_reference (fs1 fs2 : filesystem)
    (filename cycle_time1 cycle_time2 : string)
    (headers : list string) (first1 first2 : string) (others : list string)
    (final_newline : bool) (period1 period2 ref1 ref2 t_1 : float)
    (ts : list float) :
  fs1 filename = Some (logfile_text headers (first1 :: others) final_newline) ->
  fs2 filename = Some (logfile_text headers (first2 :: others) final_newline) ->
  header_ok headers = true ->
  forallb is_line (first1 :: first2 :: others) = true ->
  float_of_string first1 = Some ref1 ->
  float_of_string first2 = Some ref2 ->
  parsed others (t_1 :: ts) ->
  float_of_string cycle_time1 = Some period1 ->
  float_of_string cycle_time2 = Some period2 ->
  exists x y1 y2,
    parse_logfile fs1 filename cycle_time1 = Ok (x, y1) /\
    parse_logfile fs2 filename cycle_time2 = Ok (x, y2).
Proof.
  intros Hf1 Hf2 Hh Hl Hr1 Hr2 Hp Hc1 Hc2.
  cbn [forallb] in Hl. apply andb_true_iff in Hl. destruct Hl as [Hl1 Hl].
  apply andb_true_iff in Hl. destruct Hl as [Hl2 Hl].
  unfold parsed in Hp.
  rewrite (parse_logfile_valid fs1 filename cycle_time1 headers
             (first1 :: others) final_newline period1 ref1 t_1 ts Hf1 Hh);
    [|cbn [forallb]; now rewrite Hl1, Hl
     |unfold parsed; cbn [map]; now rewrite Hr1, Hp|exact Hc1].
  rewrite (parse_logfile_valid fs2 filename cycle_time2 headers
             (first2 :: others) final_newline period2 ref2 t_1 ts Hf2 Hh);
    [|cbn [forallb]; now rewrite Hl2, Hl
     |unfold parsed; cbn [map]; now rewrite Hr2, Hp|exact Hc2].
  eexists. eexists. eexists. split; reflexivity.
Qed.

Lemma elapsed_ignores_reference_witness :
  exists x y1 y2,
    parse_logfile scenario_fs log_name "0.1" = Ok (x, y1) /\
    parse_logfile
      (single_file log_name
         (logfile_text sample_headers ["9.5"; "10.1"; "10.25"] true))
      log_name "0.25"
    = Ok (x, y2).
Proof.
  apply (elapsed_ignores_reference scenario_fs _ log_name "0.1" "0.25"
           sample_headers "10.0" "9.5" ["10.1"; "10.25"] true
           (the_float "0.1") (the_float "0.25")
           (the_float "10.0") (the_float "9.5")
           (the_float "10.1") [the_float "10.25"]);
    vm_compute; reflexivity.
Defined.

(** X11. Samples added at the end of a valid log leave what was computed
    before as it is: the arrays of the longer log start with the arrays
    of the shorter one and have one more element per added line. *)
Theorem appended_samples_extend (fs1 fs2 : filesystem)
    (filename cycle_time : string) (headers lines more : list string)
    (final1 final2 : bool) (period t_0 t_1 : float) (ts ts' : list float) :
  fs1 filename = Some (logfile_text headers lines final1) ->
  fs2 filename = Some (logfile_text headers (lines ++ more) final2) ->
  header_ok headers = true ->
  forallb is_line (lines ++ more) = true ->
  parsed lines (t_0 :: t_1 :: ts) ->
  parsed more ts' ->
  float_of_string cycle_time = Some period ->
  exists x y x' y',
    parse_logfile fs1 filename cycle_time = Ok (x, y) /\
    parse_logfile fs2 filename cycle_time = Ok (x ++ x', y ++ y') /\
    List.length x' = List.length more /\
    List.length y' = List.length more.
Proof.
  intros Hf1 Hf2 Hh Hl Hp Hp' Hc.
  rewrite forallb_app in Hl. apply andb_true_iff in Hl. destruct Hl as [Hl1 Hl2].
  assert (Hpp : parsed (lines ++ more) (t_0 :: t_1 :: ts ++ ts')).
  { unfold parsed in *. rewrite map_app, Hp, Hp'.
    change (t_0 :: t_1 :: ts ++ ts') with ((t_0 :: t_1 :: ts) ++ ts').
    now rewrite map_app. }
  rewrite (parse_logfile_valid _ _ _ _ _ _ _ _ _ _ Hf1 Hh Hl1 Hp Hc).
  rewrite (parse_logfile_valid fs2 filename cycle_time headers (lines ++ more)
             final2 period t_0 t_1 (ts ++ ts') Hf2 Hh);
    [|rewrite forallb_app; now rewrite Hl1, Hl2|exact Hpp|exact Hc].
  change (t_1 :: ts ++ ts') with ((t_1 :: ts) ++ ts').
  rewrite latencies_app, !map_app.
  eexists. eexists. eexists. eexists.
  split; [reflexivity|]. split; [reflexivity|].
  rewrite !length_map, latencies_length, <- (parsed_length _ _ Hp').
  now split.
Qed.

Lemma appended_samples_extend_witness :
  exists x y x' y',
    parse_logfile
      (single_file log_name (logfile_text sample_headers ["10.0"; "10.1"] true))
      log_name "0.1"
    = Ok (x, y) /\
    parse_logfile scenario_fs log_name "0.1" = Ok (x ++ x', y ++ y') /\
    List.length x' = List.length ["10.25"] /\
    List.length y' = List.length ["10.25"].
Proof.
  apply (appended_samples_extend _ scenario_fs log_name "0.1"
           sample_headers ["10.0"; "10.1"] ["10.25"] true true
           (the_float "0.1") (the_float "10.0") (the_float "10.1")
           [] [the_float "10.25"]);
    vm_compute; reflexivity.
Defined.

(** ** The script and the built-ins *)

(** X12. Run without the cycle time on its command line, the script
    fails with [IndexError] before the log is opened: the outcome is
    the same whether the log exists or not. *)
Theorem main_without_argument (argv : list string) (fs : filesystem) :
  List.length argv <= 1 ->
  main_arrays argv fs = Raise IndexError.
Proof.
  intros Hlen. unfold main_arrays, index.
  destruct (nth_error argv 1) eqn:Hnth; [|reflexivity].
  assert (1 < List.length argv) by (apply nth_error_Some; congruence). lia.
Qed.

Lemma main_without_argument_witness :
  main_arrays ["plot_latency.py"] (fun _ => None) = Raise IndexError.
Proof.
  apply (main_without_argument ["plot_latency.py"] (fun _ => None)).
  simpl. lia.
Defined.

(** X13. [split] loses nothing: the pieces of [data.split(sep, n)]
    joined by the separator give back [data]. *)
Theorem split_join (sep : ascii) (s : string) :
  forall n, String.concat (String sep EmptyString) (split sep n s) = s.
Proof.
  induction s as [|c r IH]; intros n; [reflexivity|].
  destruct n as [|m]; [reflexivity|].
  cbn [split]. destruct (Ascii.eqb_spec c sep) as [->|Hne].
  - specialize (IH m). pose proof (split_not_nil sep m r) as Hnil.
    destruct (split sep m r) as [|piece pieces]; [congruence|].
    change (String sep (String.concat (String sep EmptyString) (piece :: pieces))
            = String sep r).
    now rewrite IH.
  - specialize (IH (S m)).
    destruct (split sep (S m) r) as [|piece pieces] eqn:Hs;
      [now elim (split_not_nil sep (S m) r)|].
    destruct pieces as [|piece' pieces]; simpl in IH |- *; now rewrite IH.
Qed.

(** ** The parser sees its lines through [float] only *)

Section ThroughFloat.

Variables (lines lines' : list string) (cycle_time cycle_time' : string).
Hypothesis Hlines : map float_of_string lines = map float_of_string lines'.
Hypothesis Hcycle : float_of_string cycle_time = float_of_string cycle_time'.

Lemma same_floats_at (i : nat) :
  (s <- index lines i ;; float_ s) = (s <- index lines' i ;; float_ s).
Proof.
  pose proof (f_equal (fun l => nth_error l i) Hlines) as H. cbv beta in H.
  rewrite !nth_error_map in H. unfold index, float_.
  destruct (nth_error lines i) as [s|], (nth_error lines' i) as [s'|];
    try discriminate; [|reflexivity].
  simpl in H. injection H as H. cbn [bind]. now rewrite H.
Qed.

Lemma bind_bind {A B C : Type} (r : result A) (f : A -> result B)
    (g : B -> result C) :
  (b <- (a <- r ;; f a) ;; g b) = (a <- r ;; b <- f a ;; g b).
Proof. now destruct r. Qed.

Lemma latency_loop_same_floats (indices : list nat) :
  forall acc,
    latency_loop lines cycle_time indices acc
    = latency_loop lines' cycle_time' indices acc.
Proof.
  induction indices as [|i indices IH]; intros acc; [reflexivity|].
  cbn [latency_loop].
  rewrite <- !(bind_bind (index lines i)), <- !(bind_bind (index lines' i)).
  rewrite (same_floats_at i).
  destruct (s <- index lines' i ;; float_ s) as [t|]; [|reflexivity].
  cbn [bind].
  rewrite <- !(bind_bind (index lines 0)), <- !(bind_bind (index lines' 0)).
  rewrite (same_floats_at 0).
  destruct (s <- index lines' 0 ;; float_ s) as [t_0|]; [|reflexivity].
  cbn [bind]. unfold float_. rewrite Hcycle.
  destruct (float_of_string cycle_time'); [|reflexivity].
  cbn [bind]. apply IH.
Qed.

End ThroughFloat.

Lemma map_result_same_floats (lines : list string) :
  forall lines',
    map float_of_string lines = map float_of_string lines' ->
    map_result float_ lines = map_result float_ lines'.
Proof.
  induction lines as [|l ls IH]; intros [|l' ls'] H; try discriminate;
    [reflexivity|].
  simpl in H. injection H as Hl Hls.
  cbn [map_result]. unfold float_ at 1 3. rewrite Hl.
  now rewrite (IH ls' Hls).
Qed.

Lemma arrays_same_floats (lines lines' : list string)
    (cycle_time cycle_time' : string) :
  map float_of_string lines = map float_of_string lines' ->
  float_of_string cycle_time = float_of_string cycle_time' ->
  arrays_of_lines lines cycle_time = arrays_of_lines lines' cycle_time'.
Proof.
  intros Hl Hc. unfold arrays_of_lines.
  rewrite (latency_loop_same_floats _ _ _ _ Hl Hc).
  assert (Hlen : List.length lines = List.length lines')
    by (rewrite <- (length_map float_of_string lines), Hl; apply length_map).
  rewrite Hlen.
  destruct (latency_loop lines' cycle_time' (xrange 1 (List.length lines')) []);
    [|reflexivity].
  cbn [bind].
  destruct lines as [|l ls], lines' as [|l' ls']; try discriminate;
    [reflexivity|].
  cbn [pop0 bind snd]. simpl in Hl. injection Hl as _ Hls.
  now rewrite (map_result_same_floats _ _ Hls).
Qed.

(** X14. Numerals that [float] reads alike are interchangeable: two log
    files whose data lines read as the same floats, line by line, give
    the same outcome for cycle times that read as the same float. *)
Theorem same_floats_same_outcome (fs1 fs2 : filesystem)
    (filename cycle_time1 cycle_time2 : string)
    (headers lines1 lines2 : list string) (final1 final2 : bool) :
  fs1 filename = Some (logfile_text headers lines1 final1) ->
  fs2 filename = Some (logfile_text headers lines2 final2) ->
  header_ok headers = true ->
  lines_ok lines1 final1 = true ->
  lines_ok lines2 final2 = true ->
  map float_of_string lines1 = map float_of_string lines2 ->
  float_of_string cycle_time1 = float_of_string cycle_time2 ->
  parse_logfile fs1 filename cycle_time1 = parse_logfile fs2 filename cycle_time2.
Proof.
  intros Hf1 Hf2 Hh Hl1 Hl2 Hl Hc.
  rewrite (parse_logfile_lines _ _ _ _ _ _ Hf1 Hh Hl1).
  rewrite (parse_logfile_lines _ _ _ _ _ _ Hf2 Hh Hl2).
  now apply arrays_same_floats.
Qed.

Lemma same_floats_same_outcome_witness :
  parse_logfile scenario_fs log_name "0.1"
  = parse_logfile
      (single_file log_name
         (logfile_text sample_headers ["1e1"; "+10.10"; "1025E-2"] false))
      log_name "1e-1".
Proof.
  apply (same_floats_same_outcome scenario_fs _ log_name "0.1" "1e-1"
           sample_headers scenario_lines ["1e1"; "+10.10"; "1025E-2"]
           true false); vm_compute; reflexivity.
Defined.

(** ** White space around a numeral *)

Section WhiteSpace.

Lemma space_cases (c : ascii) :
  is_space c = true ->
  c = " "%char \/ c = "009"%char \/ c = "010"%char \/ c = "011"%char \/
  c = "012"%char \/ c = "013"%char.
Proof.
  destruct c as [[] [] [] [] [] [] [] []]; intros H;
    try discriminate H; auto 7.
Qed.

Ltac space_case c H :=
  destruct (space_cases c H) as [->|[->|[->|[->|[->| ->]]]]].

Variable w : string.
Hypothesis Hw : all_space w = true.

Lemma all_space_head (c : ascii) (r : string) :
  all_space (String c r) = true -> is_space c = true /\ all_space r = true.
Proof. simpl. intros H. now apply andb_true_iff in H. Qed.

Lemma skip_all_space (s : string) : all_space s = true -> skip_space s = EmptyString.
Proof.
  induction s as [|c r IH]; [reflexivity|]. intros H.
  apply all_space_head in H. destruct H as [Hc Hr].
  simpl. rewrite Hc. now apply IH.
Qed.

Lemma skip_space_before (s : string) : skip_space (w ++ s) = skip_space s.
Proof.
  revert Hw. induction w as [|c r IH]; intros H; [reflexivity|].
  apply all_space_head in H. destruct H as [Hc Hr].
  simpl. rewrite Hc. now apply IH.
Qed.

Lemma skip_space_after (s : string) :
  skip_space (s ++ w)
  = match skip_space s with
    | EmptyString => EmptyString
    | String c r => String c (r ++ w)
    end.
Proof.
  induction s as [|a s IH]; simpl.
  - now apply skip_all_space.
  - destruct (is_space a); [exact IH|reflexivity].
Qed.

Lemma read_sign_after (u : string) :
  read_sign (u ++ w) = (fst (read_sign u), (snd (read_sign u) ++ w)%string).
Proof.
  destruct u as [|a u].
  - simpl. destruct w as [|c r]; [reflexivity|].
    apply all_space_head in Hw. destruct Hw as [Hc _].
    space_case c Hc; reflexivity.
  - destruct a as [[] [] [] [] [] [] [] []]; reflexivity.
Qed.

Lemma read_digits_after (u : string) :
  forall acc cnt,
    read_digits acc cnt (u ++ w)
    = (fst (read_digits acc cnt u), (snd (read_digits acc cnt u) ++ w)%string).
Proof.
  induction u as [|a u IH]; intros acc cnt.
  - simpl. destruct w as [|c r]; [reflexivity|].
    apply all_space_head in Hw. destruct Hw as [Hc _].
    space_case c Hc; reflexivity.
  - change ((String a u ++ w)%string) with (String a (u ++ w)).
    cbn [read_digits]. destruct (digit_of a); [apply IH|reflexivity].
Qed.

Lemma match_nocase_after (p : string) :
  forallb (fun a => negb (is_space a)) (list_ascii_of_string p) = true ->
  forall u,
    match_nocase p (u ++ w)
    = option_map (fun r => (r ++ w)%string) (match_nocase p u).
Proof.
  induction p as [|a p IH]; intros Hp u; [reflexivity|].
  simpl in Hp. apply andb_true_iff in Hp. destruct Hp as [Ha Hp].
  destruct u as [|b u].
  - simpl. destruct w as [|c r]; [reflexivity|].
    apply all_space_head in Hw. destruct Hw as [Hc _].
    destruct (Ascii.eqb_spec (lower c) a) as [<-|]; [|reflexivity].
    exfalso. space_case c Hc; discriminate Ha.
  - change ((String b u ++ w)%string) with (String b (u ++ w)).
    cbn [match_nocase].
    destruct (Ascii.eqb (lower b) a); [now apply IH|reflexivity].
Qed.

Lemma read_exponent_after (r : string) :
  read_exponent (r ++ w)
  = (fst (read_exponent r), (snd (read_exponent r) ++ w)%string).
Proof.
  destruct r as [|c r].
  - simpl. destruct w as [|c r]; [reflexivity|].
    apply all_space_head in Hw. destruct Hw as [Hc _].
    space_case c Hc; reflexivity.
  - change ((String c r ++ w)%string) with (String c (r ++ w)).
    unfold read_exponent.
    destruct (Ascii.eqb (lower c) "e"); [|reflexivity].
    rewrite read_sign_after. destruct (read_sign r) as [neg r1].
    cbn [fst snd]. rewrite read_digits_after.
    destruct (read_digits 0 0 r1) as [[e cnt] r2]. cbn [fst snd].
    now destruct cnt.
Qed.

Lemma read_fraction_after (m : N) (r : string) :
  match (r ++ w)%string with
  | String "." r' => read_digits m 0 r'
  | _ => (m, O, (r ++ w)%string)
  end
  = (fst match r with
         | String "." r' => read_digits m 0 r'
         | _ => (m, O, r)
         end,
     (snd match r with
          | String "." r' => read_digits m 0 r'
          | _ => (m, O, r)
          end ++ w)%string).
Proof.
  destruct r as [|c r].
  - simpl. destruct w as [|c r]; [reflexivity|].
    apply all_space_head in Hw. destruct Hw as [Hc _].
    space_case c Hc; reflexivity.
  - change ((String c r ++ w)%string) with (String c (r ++ w)).
    destruct c as [[] [] [] [] [] [] [] []];
      try reflexivity; apply read_digits_after.
Qed.

Lemma read_number_after (u : string) :
  read_number (u ++ w)
  = option_map (fun xr => (fst xr, (snd xr ++ w)%string)) (read_number u).
Proof.
  unfold read_number. rewrite read_sign_after.
  destruct (read_sign u) as [neg r]. cbn [fst snd].
  rewrite (match_nocase_after "inf" eq_refl).
  destruct (match_nocase "inf" r) as [r1|]; cbn [option_map].
  - rewrite (match_nocase_after "inity" eq_refl).
    now destruct (match_nocase "inity" r1).
  - rewrite (match_nocase_after "nan" eq_refl).
    destruct (match_nocase "nan" r) as [r1|]; cbn [option_map]; [reflexivity|].
    rewrite read_digits_after.
    destruct (read_digits 0 0 r) as [[m1 n1] r1]. cbn [fst snd].
    rewrite read_fraction_after.
    destruct (match r1 with
              | String "." r' => read_digits m1 0 r'
              | _ => (m1, O, r1)
              end) as [[m2 n2] r2].
    cbn [fst snd]. destruct (n1 + n2)%nat; [reflexivity|].
    rewrite read_exponent_after.
    now destruct (read_exponent r2) as [e r3].
Qed.

Lemma float_of_string_after (s : string) :
  float_of_string (s ++ w) = float_of_string s.
Proof.
  unfold float_of_string. rewrite skip_space_after.
  destruct (skip_space s) as [|c r]; [reflexivity|].
  change (String c (r ++ w)) with ((String c r ++ w)%string).
  rewrite read_number_after.
  destruct (read_number (String c r)) as [[x r']|]; [|reflexivity].
  cbn [option_map fst snd]. rewrite skip_space_after.
  now destruct (skip_space r').
Qed.

Lemma float_of_string_before (s : string) :
  float_of_string (w ++ s) = float_of_string s.
Proof. unfold float_of_string. now rewrite skip_space_before. Qed.

End WhiteSpace.

(** White space on both sides of a string is nothing to [float]. *)
Lemma float_ignores_padding (pre post s : string) :
  all_space pre = true -> all_space post = true ->
  float_of_string (pre ++ s ++ post) = float_of_string s.
Proof.
  intros Hpre Hpost.
  rewrite (float_of_string_before pre Hpre).
  apply (float_of_string_after post Hpost).
Qed.

(** X15. White space around the numerals is ignored: a log whose data
    lines are padded with white space before and after gives, for a
    cycle time padded alike, the same outcome as the log without the
    padding, be it arrays or an exception. *)
Theorem white_space_ignored (fs1 fs2 : filesystem)
    (filename cycle_time : string) (headers lines : list string)
    (final1 final2 : bool) (pre post : string) :
  fs1 filename = Some (logfile_text headers lines final1) ->
  fs2 filename
  = Some (logfile_text headers
            (map (fun s => pre ++ s ++ post)%string lines) final2) ->
  header_ok headers = true ->
  lines_ok lines final1 = true ->
  lines_ok (map (fun s => pre ++ s ++ post)%string lines) final2 = true ->
  all_space pre = true ->
  all_space post = true ->
  parse_logfile fs1 filename cycle_time
  = parse_logfile fs2 filename (pre ++ cycle_time ++ post).
Proof.
  intros Hf1 Hf2 Hh Hl1 Hl2 Hpre Hpost.
  rewrite (parse_logfile_lines _ _ _ _ _ _ Hf1 Hh Hl1).
  rewrite (parse_logfile_lines _ _ _ _ _ _ Hf2 Hh Hl2).
  apply arrays_same_floats.
  - rewrite map_map. apply map_ext. intros s.
    symmetry. now apply float_ignores_padding.
  - symmetry. now apply float_ignores_padding.
Qed.

Lemma white_space_ignored_witness :
  parse_logfile scenario_fs log_name "0.1"
  = parse_logfile
      (single_file log_name
         (logfile_text sample_headers
            (map (fun s => "  " ++ s ++ String TAB " ")%string scenario_lines)
            true))
      log_name ("  " ++ "0.1" ++ String TAB " ").
Proof.
  apply (white_space_ignored scenario_fs _ log_name "0.1"
           sample_headers scenario_lines true true "  " (String TAB " "));
    reflexivity.
Defined.
